(** * Hybrid quantum/classical exam-topic predictor: estimation and selection core

    A shallow embedding of

      - [src/services/vqe_predictor.py] : the [VQEPredictor] service (batch
        orchestrator, quantum pattern estimator, classical estimator), and
      - [src/api/main.py]               : the [/api/v1/predict] endpoint (method
        selection policy and the locally assembled prediction records),
      - [src/config/settings.py]        : the [Settings] the service reads.

    Numbers.  Python floats are idealised as exact rationals ([Q]); every
    constant is the decimal literal of the source.  Where the source can
    produce a value that is not a finite number (a standard deviation with
    no degrees of freedom left), the value is an [option Q] whose [None]
    stands for that non-finite float.  Statements compare rationals with
    [==] ([Qeq]).

    Foreign code.  The variational eigensolver (qiskit) is a parameter of the
    development: a function from what the estimator hands to it to either an
    eigenvalue or an exception. *)

From Stdlib Require Import ZArith QArith Qround Qabs Lqa Lia Sorted.
From stdpp Require Import gmap strings pretty.

Local Open Scope Q_scope.

(* ================================================================== *)
(** ** Python builtins on floats *)

Module Py.

(** [max(a, b)]: the builtin keeps its first argument unless a later one
    compares strictly greater. *)
Definition max (a b : Q) : Q := if Qlt_le_dec a b then b else a.

(** [min(a, b)]: the builtin keeps its first argument unless a later one
    compares strictly smaller. *)
Definition min (a b : Q) : Q := if Qlt_le_dec b a then b else a.

(** [max(a, v)] and [min(a, v)] where [v] may be a non-finite float.  In
    this program a non-finite [v] is [nan], or [-inf] under [max], or
    [+inf] under [min]; every comparison that would replace [a] is false,
    and the builtin returns [a]. *)
Definition max_nf (a : Q) (v : option Q) : Q :=
  match v with Some b => max a b | None => a end.

Definition min_nf (a : Q) (v : option Q) : Q :=
  match v with Some b => min a b | None => a end.

(** Nearest integer, ties to the even neighbour. *)
Definition round_half_even (q : Q) : Z :=
  let f := Qfloor q in
  match Qcompare (q - inject_Z f) (1 # 2) with
  | Lt => f
  | Gt => (f + 1)%Z
  | Eq => if Z.even f then f else (f + 1)%Z
  end.

(** [round(x, ndigits)]. *)
Definition round (x : Q) (ndigits : nat) : Q :=
  let scale := inject_Z (10 ^ Z.of_nat ndigits) in
  inject_Z (round_half_even (x * scale)) / scale.

(** [int(x)]: truncation towards zero. *)
Definition int (x : Q) : Z :=
  if Qlt_le_dec x 0 then Qceiling x else Qfloor x.

(** [len(l)] as a float operand. *)
Definition len {A} (l : list A) : Q := inject_Z (Z.of_nat (length l)).

End Py.

(* ================================================================== *)
(** ** The numpy routines the estimators call *)

Module NumPy.

(** [np.sum]. *)
Definition sum (l : list Q) : Q := fold_right Qplus 0 l.

(** [np.mean] of a non-empty array. *)
Definition mean (l : list Q) : Q := sum l / Py.len l.

(** [np.arange(n)] as floats. *)
Definition arange (n : nat) : list Q :=
  List.map (fun i => inject_Z (Z.of_nat i)) (seq 0 n).

(** Square root on the rationals: the root of [q], cut after 18 decimal
    places.  The development relies on nothing but [0 <= sqrt q] and
    [sqrt 0 == 0]. *)
Definition sqrt (q : Q) : Q :=
  let scale := (10 ^ 18)%Z in
  inject_Z (Z.sqrt (Qfloor (q * inject_Z (scale * scale)))) / inject_Z scale.

(** Sum of squared deviations from the mean. *)
Definition sum_sq_dev (l : list Q) : Q :=
  let m := mean l in sum (List.map (fun v => (v - m) * (v - m)) l).

(** [np.std(l, ddof=ddof)].  With no degrees of freedom left
    ([len(l) - ddof <= 0]) numpy divides by zero and the result is
    [nan] or [inf]: [None]. *)
Definition std (l : list Q) (ddof : nat) : option Q :=
  if (ddof <? length l)%nat
  then Some (sqrt (sum_sq_dev l / inject_Z (Z.of_nat (length l - ddof))))
  else None.

(** [np.polyfit(x, y, 1)]: the least-squares line, returned as
    [(slope, intercept)]. *)
Definition polyfit1 (x y : list Q) : Q * Q :=
  let n := Py.len x in
  let sx := sum x in
  let sy := sum y in
  let sxy := sum (zip_with Qmult x y) in
  let sxx := sum (zip_with Qmult x x) in
  let slope := (n * sxy - sx * sy) / (n * sxx - sx * sx) in
  (slope, (sy - slope * sx) / n).

End NumPy.

(* ================================================================== *)
(** ** Exceptions and the error monad *)

Inductive exn : Type :=
| ValueError (msg : string)
| RuntimeError (msg : string)
| IndexError (msg : string)
| KeyError (msg : string)
| HTTPException (detail : string)
| BackendError (msg : string).

Inductive exc (A : Type) : Type :=
| Ok (a : A)
| Raise (e : exn).

Arguments Ok {A} a.
Arguments Raise {A} e.

#[global] Instance exc_ret : MRet exc := fun A a => Ok a.

#[global] Instance exc_bind : MBind exc := fun A B k c =>
  match c with Ok a => k a | Raise e => Raise e end.

(** [try: c  except Exception as e: h e]. *)
Definition try_except {A} (c : exc A) (h : exn -> exc A) : exc A :=
  match c with Ok a => Ok a | Raise e => h e end.

(** [str(e)]. *)
Definition str_exn (e : exn) : string :=
  match e with
  | ValueError m | RuntimeError m | IndexError m | KeyError m
  | HTTPException m
  | BackendError m => m
  end.

(* ================================================================== *)
(** ** Data model ([vqe_predictor.py], [settings.py]) *)

Record PredictionRequest : Type := {
  topics : list string;
  historical_years : Z;
  confidence_level : Q;
  force_classical : bool
}.

Record PredictionResult : Type := {
  topic : string;
  importance : Q;
  confidence_interval : Q * Q;
  trend : string;
  method : string
}.

Record VQEPredictionResponse : Type := {
  predictions : list PredictionResult;
  execution_time_ms : Z;
  fallback_used : bool
}.

(** The fields of [Settings] that the service reads.  Each one is loaded
    from the environment, with the default of [default_settings]. *)
Record Settings : Type := {
  settings_max_qubits : nat;
  settings_max_iterations : nat;
  settings_quantum_available : bool;
  min_historical_years : Z
}.

Definition default_settings : Settings := {|
  settings_max_qubits := 6;
  settings_max_iterations := 100;
  settings_quantum_available := true;
  min_historical_years := 3
|}.

(** The attributes of a [VQEPredictor] instance. *)
Record VQEPredictor : Type := {
  max_qubits : nat;
  max_iterations : nat;
  quantum_available : bool
}.

(** [VQEPredictor.__init__]; [qiskit_available] is the module's
    [QISKIT_AVAILABLE].  [a or b] takes [b] when [a] is [None] or [0]. *)
Definition VQEPredictor_init (settings : Settings) (qiskit_available : bool)
    (max_qubits_arg max_iterations_arg : option nat) : VQEPredictor :=
  let or_default (a : option nat) (d : nat) :=
    match a with Some (S n) => S n | _ => d end in
  {| max_qubits := or_default max_qubits_arg (settings_max_qubits settings);
     max_iterations := or_default max_iterations_arg (settings_max_iterations settings);
     quantum_available := qiskit_available && settings_quantum_available settings |}.

(** [result.method = m]. *)
Definition set_method (r : PredictionResult) (m : string) : PredictionResult :=
  {| topic := topic r; importance := importance r;
     confidence_interval := confidence_interval r;
     trend := trend r; method := m |}.

(* ================================================================== *)
(** ** Classical estimator: [VQEPredictor._classical_prediction] *)

Definition _classical_prediction (self : VQEPredictor) (topic : string)
    (data : list Q) (confidence_level : Q) : exc PredictionResult :=
  if (length data <? 2)%nat
  then Raise (ValueError "Need at least 2 data points for classical prediction")
  else
    let x := NumPy.arange (length data) in
    let y := data in
    let '(slope, intercept) := NumPy.polyfit1 x y in
    let next_x := Py.len data in
    let predicted_value := slope * next_x + intercept in
    let importance := Py.min 1 (Py.max 0 (predicted_value / 100)) in
    let residuals := zip_with (fun yi xi => yi - (slope * xi + intercept)) y x in
    let std_error := NumPy.std residuals 2 in
    let margin := option_map (Qmult 1.96) std_error in
    let confidence_lower :=
      Py.max_nf 0 (option_map (fun m => (predicted_value - m) / 100) margin) in
    let confidence_upper :=
      Py.min_nf 1 (option_map (fun m => (predicted_value + m) / 100) margin) in
    let trend :=
      if Qlt_le_dec 0 slope then "increasing"
      else if Qlt_le_dec slope 0 then "decreasing"
      else "stable" in
    Ok {| topic := topic;
          importance := Py.round importance 4;
          confidence_interval :=
            (Py.round confidence_lower 4, Py.round confidence_upper 4);
          trend := trend;
          method := "classical" |}.

(* ================================================================== *)
(** ** Quantum pattern estimator: [VQEPredictor._quantum_prediction] *)

(** The qiskit side of the estimator: building the Pauli-sum operator and
    the ansatz for [num_qubits] qubits from the series, and running VQE
    under COBYLA with [maxiter] iterations.  It yields the real part of the
    minimum eigenvalue, or raises. *)
Definition vqe_backend : Type :=
  nat (* num_qubits *) -> list Q (* data *) -> nat (* maxiter *) -> exc Q.

(** The trend line of the estimator: [len(data) >= 2] holds exactly when
    the reversed series starts with [data[-1]], [data[-2]]. *)
Definition quantum_trend (data : list Q) : string :=
  match rev data with
  | last :: before_last :: _ =>
      if Qlt_le_dec before_last last then "increasing" else "decreasing"
  | _ => "stable"
  end.

Definition _quantum_prediction (self : VQEPredictor) (vqe : vqe_backend)
    (topic : string) (data : list Q) (confidence_level : Q)
    : exc PredictionResult :=
  if negb (quantum_available self)
  then Raise (RuntimeError "Quantum prediction requested but Qiskit not available")
  else
    let num_qubits := Nat.min (length data) (max_qubits self) in
    eigenvalue ← vqe num_qubits data (max_iterations self);
    let importance := (eigenvalue + 2) / 4 in
    let importance := Py.max 0 (Py.min 1 importance) in
    let std_dev :=
      if (1 <? length data)%nat
      then option_map (fun s => s / Py.len data) (NumPy.std data 0)
      else Some 0.1 in
    let margin :=
      option_map (fun s => (1.96 * s) * (1 - confidence_level)) std_dev in
    let confidence_lower :=
      Py.max_nf 0 (option_map (fun m => importance - m) margin) in
    let confidence_upper :=
      Py.min_nf 1 (option_map (fun m => importance + m) margin) in
    let trend := quantum_trend data in
    Ok {| topic := topic;
          importance := Py.round importance 4;
          confidence_interval :=
            (Py.round confidence_lower 4, Py.round confidence_upper 4);
          trend := trend;
          method := "quantum" |}.

(* ================================================================== *)
(** ** Orchestrator: [VQEPredictor.predict_topics] *)

(** What the orchestrator writes to [service_logger], one constructor per
    logging call of [predict_topics]; the error lines carry the exception
    they are logged with.  The estimators' own progress lines are not
    recorded. *)
Inductive log_record : Type :=
| StartingPrediction
| TopicNotFound (topic : string)
| InsufficientData (topic : string) (data_points : nat) (required : Z)
| QuantumCompleted (topic : string)
| ClassicalCompleted (topic : string)
| ErrorPredicting (topic : string) (e : exn)
| FallbackSuccessful (topic : string)
| FallbackFailed (topic : string) (e2 : exn).

Inductive level : Type := INFO | WARNING | ERROR.

Definition log_level (r : log_record) : level :=
  match r with
  | TopicNotFound _ | InsufficientData _ _ _ => WARNING
  | ErrorPredicting _ _ | FallbackFailed _ _ => ERROR
  | _ => INFO
  end.

Definition log_message (r : log_record) : string :=
  match r with
  | StartingPrediction => "Starting topic prediction"
  | TopicNotFound t => "Topic '" +:+ t +:+ "' not found in historical data"
  | InsufficientData t _ _ => "Topic '" +:+ t +:+ "' has insufficient data"
  | QuantumCompleted t => "Quantum prediction completed for " +:+ t
  | ClassicalCompleted t => "Classical prediction completed for " +:+ t
  | ErrorPredicting t _ => "Error predicting " +:+ t
  | FallbackSuccessful t => "Classical fallback successful for " +:+ t
  | FallbackFailed t _ => "Classical fallback also failed for " +:+ t
  end.

(** The state the loop over [request.topics] threads: the [predictions]
    list and the log, both in the order written. *)
Definition loop_state : Type := list PredictionResult * list log_record.

Definition emit (r : log_record) (st : loop_state) : loop_state :=
  (st.1, st.2 ++ [r]).

Definition append (p : PredictionResult) (st : loop_state) : loop_state :=
  (st.1 ++ [p], st.2).

(** [request] with another list of topics. *)
Definition with_topics (request : PredictionRequest) (ts : list string)
    : PredictionRequest :=
  {| topics := ts;
     historical_years := historical_years request;
     confidence_level := confidence_level request;
     force_classical := force_classical request |}.

Section Orchestrator.

Variable self : VQEPredictor.
Variable settings : Settings.
Variable vqe : vqe_backend.
Variable request : PredictionRequest.
Variable historical_data : gmap string (list Q).

(** One iteration of [for topic in request.topics]. *)
Definition loop_body (st : loop_state) (topic : string) : exc loop_state :=
  match historical_data !! topic with
  | None => Ok (emit (TopicNotFound topic) st)
  | Some data =>
      if (Z.of_nat (length data) <? min_historical_years settings)%Z
      then Ok (emit (InsufficientData topic (length data)
                       (min_historical_years settings)) st)
      else
        try_except
          (if quantum_available self && negb (force_classical request)
           then
             result ← _quantum_prediction self vqe topic data
                        (confidence_level request);
             Ok (append result (emit (QuantumCompleted topic) st))
           else
             result ← _classical_prediction self topic data
                        (confidence_level request);
             Ok (append result (emit (ClassicalCompleted topic) st)))
          (fun e =>
             let st := emit (ErrorPredicting topic e) st in
             try_except
               (result ← _classical_prediction self topic data
                          (confidence_level request);
                let result := set_method result "classical_fallback" in
                Ok (emit (FallbackSuccessful topic) (append result st)))
               (fun e2 => Ok (emit (FallbackFailed topic e2) st)))
  end.

(** [for topic in ts: body]. *)
Fixpoint for_topics (ts : list string) (st : loop_state) : exc loop_state :=
  match ts with
  | [] => Ok st
  | t :: ts' => st' ← loop_body st t; for_topics ts' st'
  end.

(** [any(p.method in ["classical", "classical_fallback"] for p in ps)]. *)
Definition any_classical (ps : list PredictionResult) : bool :=
  existsb (fun p => String.eqb (method p) "classical"
                    || String.eqb (method p) "classical_fallback") ps.

(** [predict_topics]; [start_time] and [end_time] are the two readings of
    [time.time()].  The result pairs the response with the log written. *)
Definition predict_topics (start_time end_time : Q)
    : exc (VQEPredictionResponse * list log_record) :=
  let st0 : loop_state := ([], [StartingPrediction]) in
  st ← for_topics (topics request) st0;
  let execution_time := Py.int ((end_time - start_time) * 1000) in
  let fallback_used := any_classical st.1 in
  Ok ({| predictions := st.1;
         execution_time_ms := execution_time;
         fallback_used := fallback_used |}, st.2).

End Orchestrator.

(* ================================================================== *)
(** ** The [/api/v1/predict] endpoint ([api/main.py]) *)

Module Api.

(** Modelled from the spec: the request model of [src.models], which is
    not among the sources (spec section 3, Prediction Request).  The
    fields are the three the endpoint reads. *)
Record PredictionRequest : Type := {
  topics : list string;
  confidence_level : Q;
  force_classical : bool
}.

(** The [uncertainty_quantification] entry of a prediction dictionary. *)
Record UncertaintyQuantification : Type := {
  quantum_uncertainty : Q;
  classical_uncertainty : Q;
  blended_uncertainty : Q
}.

(** A prediction dictionary; a key that may be missing is an [option]. *)
Record Prediction : Type := {
  topic : string;
  importance : Q;
  confidence_interval : Q * Q;
  trend : string;
  method : string;
  quantum_contribution : option Q;
  classical_contribution : option Q;
  uncertainty_quantification : option UncertaintyQuantification
}.

Definition mock_historical_data : gmap string (list Q) :=
  list_to_map
    [("quantum-mechanics", [15; 18; 22; 25; 28]);
     ("linear-algebra", [20; 19; 21; 20; 22]);
     ("thermodynamics", [25; 22; 18; 15; 12]);
     ("computer-science", [10; 15; 20; 25; 30]);
     ("machine-learning", [5; 10; 15; 20; 25]);
     ("algorithms", [30; 28; 32; 35; 38]);
     ("data-structures", [25; 27; 29; 31; 33]);
     ("neural-networks", [8; 12; 18; 22; 28]);
     ("statistics", [12; 15; 18; 20; 22])].

(** What [predictor.predict_topics({...})] does for the endpoint: the
    module-level [predictor] is whatever object is bound at call time. *)
Record ServiceResult : Type := {
  sr_predictions : list Prediction;      (* [.get("predictions", [])] *)
  sr_execution_time_ms : option Z;
  sr_fallback_used : option bool;
  sr_method_used : option string
}.

Inductive ServiceOutcome : Type :=
| NoSuchMethod                            (* [hasattr] is false *)
| Raises (e : exn)
| Falsy                                   (* [None], [{}] *)
| Returns (r : ServiceResult).

(** Lines 113-120: the availability the policy sees; [attr] is
    [predictor.quantum_available] when the attribute exists. *)
Definition quantum_available_seen (attr : option bool) : bool :=
  match attr with Some false => false | _ => true end.

(** Lines 126-139, the method selection policy:
    [(method_used, fallback_used)]. *)
Definition method_selection (force_classical quantum_available : bool)
    (confidence_level : Q) : string * bool :=
  if force_classical then ("classical", false)
  else if negb quantum_available then ("classical", true)
  else if Qle_bool 0.99 confidence_level then ("quantum", false)
  else ("hybrid", false).

(** Lines 188-199 (and again 234-245):
    [(quantum_contribution, classical_contribution)]. *)
Definition blend_weights (confidence_level : Q) : Q * Q :=
  if Qle_bool 0.95 confidence_level then (0.9, 0.1)
  else if Qle_bool 0.90 confidence_level then (0.7, 0.3)
  else if Qle_bool 0.85 confidence_level then (0.6, 0.4)
  else (0.4, 0.6).

(** Lines 185-218 (and 231-264): the hybrid and quantum keys added to a
    prediction dictionary [p]. *)
Definition add_method_fields (method_used : string) (confidence_level : Q)
    (p : Prediction) : Prediction :=
  let hybrid := String.eqb method_used "hybrid" in
  let w := blend_weights confidence_level in
  {| topic := topic p; importance := importance p;
     confidence_interval := confidence_interval p;
     trend := trend p; method := method p;
     quantum_contribution :=
       if hybrid then Some w.1 else quantum_contribution p;
     classical_contribution :=
       if hybrid then Some w.2 else classical_contribution p;
     uncertainty_quantification :=
       if hybrid
       then Some {| quantum_uncertainty := 0.05;
                    classical_uncertainty := 0.03;
                    blended_uncertainty := 0.04 |}
       else if String.eqb method_used "quantum"
       then Some {| quantum_uncertainty := 0.08;
                    classical_uncertainty := 0.0;
                    blended_uncertainty := 0.08 |}
       else uncertainty_quantification p |}.

(** Lines 168-266: the dictionary built for one topic. *)
Definition local_prediction (method_used : string) (confidence_level : Q)
    (historical_frequencies : gmap string (list Q)) (topic_name : string)
    : exc Prediction :=
  match historical_frequencies !! topic_name with
  | Some series =>
      match last series, head series with
      | Some latest_freq, Some first =>
          let trend :=
            if Qlt_le_dec first latest_freq then "increasing"
            else "decreasing" in
          Ok (add_method_fields method_used confidence_level
                {| topic := topic_name;
                   importance := Py.round (latest_freq / 100) 4;
                   confidence_interval :=
                     (Py.round (Py.max 0 (latest_freq - 5) / 100) 4,
                      Py.round (Py.min 100 (latest_freq + 5) / 100) 4);
                   trend := trend;
                   method := method_used;
                   quantum_contribution := None;
                   classical_contribution := None;
                   uncertainty_quantification := None |})
      | _, _ => Raise (IndexError "list index out of range")
      end
  | None =>
      Ok (add_method_fields method_used confidence_level
            {| topic := topic_name;
               importance := 0.0;
               confidence_interval := (0.0, 0.0);
               trend := "unknown";
               method := method_used;
               quantum_contribution := None;
               classical_contribution := None;
               uncertainty_quantification := None |})
  end.

Fixpoint local_predictions (method_used : string) (confidence_level : Q)
    (historical_frequencies : gmap string (list Q)) (ts : list string)
    : exc (list Prediction) :=
  match ts with
  | [] => Ok []
  | t :: ts' =>
      p ← local_prediction method_used confidence_level
            historical_frequencies t;
      ps ← local_predictions method_used confidence_level
             historical_frequencies ts';
      Ok (p :: ps)
  end.

(** Modelled from the spec: the response model of [src.models], which is
    not among the sources.  The record holds the keys of [response_data]
    that do not come from the clock, [psutil] or [random]: the
    predictions, the batch flag and the method. *)
Record PredictionResponse : Type := {
  predictions : list Prediction;
  fallback_used : bool;
  method_used : string
}.

Inductive HttpResult : Type :=
| Http200 (r : PredictionResponse)
| Http500 (detail : string).

(** The endpoint [predict_topics].  Any exception of the body, the 422
    for an empty topic list included, leaves through the outer handler
    as a 500. *)
Definition predict_topics (predictor_quantum_available : option bool)
    (service : ServiceOutcome) (request : PredictionRequest) : HttpResult :=
  let body : exc PredictionResponse :=
    if bool_decide (topics request = [])
    then Raise (HTTPException "Topics list cannot be empty")
    else
      let historical_frequencies :=
        filter (fun kv => kv.1 ∈ topics request) mock_historical_data in
      let quantum_available :=
        quantum_available_seen predictor_quantum_available in
      let '(method_used, fallback_used) :=
        method_selection (force_classical request) quantum_available
          (confidence_level request) in
      let '(predictions, fallback_used, method_used) :=
        match service with
        | NoSuchMethod | Falsy => ([], fallback_used, method_used)
        | Raises _ => ([], true, "classical")
        | Returns r =>
            (sr_predictions r,
             default fallback_used (sr_fallback_used r),
             default method_used (sr_method_used r))
        end in
      predictions ←
        match predictions with
        | [] => local_predictions method_used (confidence_level request)
                  historical_frequencies (topics request)
        | _ => Ok predictions
        end;
      Ok {| predictions := predictions;
            fallback_used := fallback_used;
            method_used := method_used |} in
  match body with
  | Ok r => Http200 r
  | Raise e => Http500 ("Prediction failed: " +:+ str_exn e)
  end.

End Api.

(* ================================================================== *)
(** ** The logger ([config/logging.py]) and the orchestrator with it *)

(** [service_logger] is a loguru logger.  A logging call that passes
    keyword arguments has its message run through
    [str.format] with those keywords before it is written; a call without
    arguments writes the message as it stands.  Both handlers are always
    installed, at levels INFO and DEBUG, so every call of the service gets
    this far.  The calls at lines 114, 136, 148 and 240 of
    [vqe_predictor.py] pass keyword arguments together with an f-string that
    already holds the topic, so what [str.format] makes of the topic
    decides whether the call returns.

    [loop_body], [for_topics] and [predict_topics] above are the
    orchestrator for logging calls that return; the definitions of
    [Logged] below carry the formatting as well, and agree with them on
    topics without braces. *)
Module Loguru.

(** The values passed as keyword arguments. *)
Inductive pyvalue : Type :=
| PyInt (z : Z)
| PyFloat (q : Q)
| PyStr (s : string)
| PyBool (b : bool)
| PyStrList (l : list string).

Definition kwargs : Type := list (string * pyvalue).

(** The builtin [str.format] on a message that contains a brace: it
    returns, or raises ([KeyError], [IndexError], [ValueError], ...).  Its
    field grammar is not reproduced. *)
Definition str_format : Type := string -> kwargs -> exc unit.

Definition open_brace : Ascii.ascii := Ascii.ascii_of_nat 123.
Definition close_brace : Ascii.ascii := Ascii.ascii_of_nat 125.

(** Does the string contain ["{"] or ["}"]? *)
Fixpoint has_brace (s : string) : bool :=
  match s with
  | EmptyString => false
  | String a s' =>
      Ascii.eqb a open_brace || Ascii.eqb a close_brace || has_brace s'
  end.

(** One logging call, as far as it can raise: without keyword arguments
    the message is not formatted; a message without braces formats to
    itself. *)
Definition log (fmt : str_format) (message : string) (kw : kwargs)
    : exc unit :=
  match kw with
  | [] => Ok tt
  | _ => if has_brace message then fmt message kw else Ok tt
  end.

End Loguru.

Module Logged.

Section Orchestrator.

Variable fmt : Loguru.str_format.
Variable self : VQEPredictor.
Variable settings : Settings.
Variable vqe : vqe_backend.
Variable request : PredictionRequest.
Variable historical_data : gmap string (list Q).

(** [VQEPredictor._quantum_prediction] with its logging call of line 240,
    which passes the eigenvalue and the importance as keywords. *)
Definition _quantum_prediction (topic : string) (data : list Q)
    (confidence_level : Q) : exc PredictionResult :=
  if negb (quantum_available self)
  then Raise (RuntimeError "Quantum prediction requested but Qiskit not available")
  else
    let num_qubits := Nat.min (length data) (max_qubits self) in
    eigenvalue ← vqe num_qubits data (max_iterations self);
    let importance := (eigenvalue + 2) / 4 in
    let importance := Py.max 0 (Py.min 1 importance) in
    _ ← Loguru.log fmt ("Quantum prediction completed for " +:+ topic)
          [("eigenvalue", Loguru.PyFloat eigenvalue);
           ("importance", Loguru.PyFloat importance)];
    let std_dev :=
      if (1 <? length data)%nat
      then option_map (fun s => s / Py.len data) (NumPy.std data 0)
      else Some 0.1 in
    let margin :=
      option_map (fun s => (1.96 * s) * (1 - confidence_level)) std_dev in
    let confidence_lower :=
      Py.max_nf 0 (option_map (fun m => importance - m) margin) in
    let confidence_upper :=
      Py.min_nf 1 (option_map (fun m => importance + m) margin) in
    let trend := quantum_trend data in
    Ok {| topic := topic;
          importance := Py.round importance 4;
          confidence_interval :=
            (Py.round confidence_lower 4, Py.round confidence_upper 4);
          trend := trend;
          method := "quantum" |}.

(** The keywords of the two error lines: [error=str(e), exc_info=True]. *)
Definition error_kwargs (e : exn) : Loguru.kwargs :=
  [("error", Loguru.PyStr (str_exn e)); ("exc_info", Loguru.PyBool true)].

(** One iteration of [for topic in request.topics].  An exception of a
    logging call inside an [except] block leaves the block. *)
Definition loop_body (st : loop_state) (topic : string) : exc loop_state :=
  match historical_data !! topic with
  | None => Ok (emit (TopicNotFound topic) st)
  | Some data =>
      if (Z.of_nat (length data) <? min_historical_years settings)%Z
      then
        let line := InsufficientData topic (length data)
                      (min_historical_years settings) in
        _ ← Loguru.log fmt (log_message line)
              [("data_points", Loguru.PyInt (Z.of_nat (length data)));
               ("required", Loguru.PyInt (min_historical_years settings))];
        Ok (emit line st)
      else
        try_except
          (if quantum_available self && negb (force_classical request)
           then
             result ← _quantum_prediction topic data (confidence_level request);
             Ok (append result (emit (QuantumCompleted topic) st))
           else
             result ← _classical_prediction self topic data
                        (confidence_level request);
             Ok (append result (emit (ClassicalCompleted topic) st)))
          (fun e =>
             _ ← Loguru.log fmt (log_message (ErrorPredicting topic e))
                   (error_kwargs e);
             let st := emit (ErrorPredicting topic e) st in
             try_except
               (result ← _classical_prediction self topic data
                          (confidence_level request);
                let result := set_method result "classical_fallback" in
                Ok (emit (FallbackSuccessful topic) (append result st)))
               (fun e2 =>
                  _ ← Loguru.log fmt (log_message (FallbackFailed topic e2))
                        (error_kwargs e2);
                  Ok (emit (FallbackFailed topic e2) st)))
  end.

Fixpoint for_topics (ts : list string) (st : loop_state) : exc loop_state :=
  match ts with
  | [] => Ok st
  | t :: ts' => st' ← loop_body st t; for_topics ts' st'
  end.

(** [predict_topics]. *)
Definition predict_topics (start_time end_time : Q)
    : exc (VQEPredictionResponse * list log_record) :=
  _ ← Loguru.log fmt (log_message StartingPrediction)
        [("topics",
          Loguru.PyStrList (topics request));
         ("historical_years", Loguru.PyInt (historical_years request));
         ("force_classical", Loguru.PyBool (force_classical request))];
  let st0 : loop_state := ([], [StartingPrediction]) in
  st ← for_topics (topics request) st0;
  let execution_time := Py.int ((end_time - start_time) * 1000) in
  let fallback_used := any_classical st.1 in
  Ok ({| predictions := st.1;
         execution_time_ms := execution_time;
         fallback_used := fallback_used |}, st.2).

End Orchestrator.

End Logged.

(* ================================================================== *)
(** ** Fixtures and notions used in the statements *)

Definition insufficient_data : exn :=
  ValueError "Need at least 2 data points for classical prediction".

(** The fixture of the unit tests ([tests/unit/test_vqe_predictor.py]). *)
Definition sample_data : gmap string (list Q) :=
  <["quantum-mechanics" := [15; 18; 22; 25; 28]]>
    (<["linear-algebra" := [20; 19; 21; 20; 22]]> ∅).

Definition forced_request : PredictionRequest :=
  {| topics := ["quantum-mechanics"]; historical_years := 5;
     confidence_level := 0.95; force_classical := true |}.

(** [topic in historical_data] and [len(data) >= min_historical_years]. *)
Definition eligible (settings : Settings) (hd : gmap string (list Q))
    (t : string) : bool :=
  match hd !! t with
  | None => false
  | Some data =>
      negb (Z.of_nat (length data) <? min_historical_years settings)%Z
  end.


Definition default_predictor : VQEPredictor :=
  VQEPredictor_init default_settings true None None.

(** The predictions the endpoint takes over from the service call. *)
Definition service_predictions (service : Api.ServiceOutcome)
    : list Api.Prediction :=
  match service with
  | Api.Returns r => Api.sr_predictions r
  | _ => []
  end.

Definition hybrid_request : Api.PredictionRequest :=
  {| Api.topics := ["quantum-mechanics"];
     Api.confidence_level := 0.95; Api.force_classical := false |}.

(** A backend that fails on the series of "quantum-mechanics" and delivers
    the eigenvalue -0.5 otherwise. *)
Definition flaky_backend : vqe_backend :=
  fun _ data _ =>
    match data with
    | 15 :: _ => Raise (BackendError "simulator failure")
    | _ => Ok (-0.5)
    end.

Definition steady_backend : vqe_backend := fun _ _ _ => Ok (-0.5).

Definition batch_request : PredictionRequest :=
  {| topics := ["linear-algebra"; "quantum-mechanics"]; historical_years := 5;
     confidence_level := 0.95; force_classical := false |}.

Definition qm_series : list Q := [15; 18; 22; 25; 28].

Definition two_topic_request : PredictionRequest :=
  {| topics := ["quantum-mechanics"; "organic-chemistry"];
     historical_years := 5; confidence_level := 0.95;
     force_classical := false |}.

(** Settings loaded with [MIN_HISTORICAL_YEARS=1]. *)
Definition lenient_settings : Settings :=
  {| settings_max_qubits := 6; settings_max_iterations := 100;
     settings_quantum_available := true; min_historical_years := 1 |}.

Definition single_point_data : gmap string (list Q) := {[ "a" := [10] ]}.

Definition single_point_request : PredictionRequest :=
  {| topics := ["a"; "b"]; historical_years := 5;
     confidence_level := 0.95; force_classical := true |}.

(** A topic identifier without braces. *)
Definition brace_free (t : string) : Prop := Loguru.has_brace t = false.

(** [str.format] as it answers the messages of a topic ["{x}"]: none of
    the keyword lists of the service has a key [x]. *)
Definition missing_field : Loguru.str_format :=
  fun _ _ => Raise (KeyError "x").

(** The fixture of the unit tests with the series of "quantum-mechanics"
    filed under the identifier ["{x}"]. *)
Definition braces_data : gmap string (list Q) :=
  <["{x}" := [15; 18; 22; 25; 28]]>
    (<["linear-algebra" := [20; 19; 21; 20; 22]]> ∅).

Definition braces_request : PredictionRequest :=
  {| topics := ["linear-algebra"; "{x}"]; historical_years := 5;
     confidence_level := 0.95; force_classical := false |}.

Definition single_point_only_request : PredictionRequest :=
  {| topics := ["a"]; historical_years := 5;
     confidence_level := 0.95; force_classical := true |}.

(** Two observations filed under ["{x}"], fewer than the default
    threshold. *)
Definition short_braces_data : gmap string (list Q) :=
  <["{x}" := [10; 12]]> (<["linear-algebra" := [20; 19; 21; 20; 22]]> ∅).

(** The value the classical estimator extrapolates for the next period
    ([predicted_value], lines 279-287 of [vqe_predictor.py]). *)
Definition classical_forecast (data : list Q) : Q :=
  let '(slope, intercept) :=
    NumPy.polyfit1 (NumPy.arange (length data)) data in
  slope * Py.len data + intercept.

(* ================================================================== *)
(** ** Data loader ([services/data_loader.py]) *)

Module DataLoader.

(** A record [(year, frequency, total_questions)]. *)
Definition record : Type := Z * Z * Z.

Definition year_of (r : record) : Z := r.1.1.

(** A loaded data dictionary, as the sequence of its items in insertion
    order. *)
Definition dataset : Type := list (string * list record).

(** [data[topic]]; [None] when [topic not in data]. *)
Fixpoint lookup (data : dataset) (topic : string) : option (list record) :=
  match data with
  | [] => None
  | (k, records) :: rest =>
      if String.eqb k topic then Some records else lookup rest topic
  end.

(** [(freq / total) * 100 if total > 0 else 0.0]. *)
Definition percentage (r : record) : Q :=
  let '(_, freq, total) := r in
  if (0 <? total)%Z then (inject_Z freq / inject_Z total) * 100 else 0.0.

(** [DataLoader.get_topic_frequencies]. *)
Definition get_topic_frequencies (data : dataset) (topic : string) : list Q :=
  match lookup data topic with
  | None => []
  | Some records => List.map percentage records
  end.

(** The three checks on one record of [validate_data]. *)
Definition record_errors (topic : string) (r : record) : list string :=
  let '(year, freq, total) := r in
  (if (freq <? 0)%Z
   then ["Topic '" +:+ topic +:+ "' year " +:+ pretty year
         +:+ ": negative frequency"]
   else [])
  ++ (if (total <=? 0)%Z
      then ["Topic '" +:+ topic +:+ "' year " +:+ pretty year
            +:+ ": invalid total questions"]
      else [])
  ++ (if (total <? freq)%Z
      then ["Topic '" +:+ topic +:+ "' year " +:+ pretty year
            +:+ ": frequency > total questions"]
      else []).

(** The body of the loop of [validate_data] for one item. *)
Definition topic_errors (min_years : Z) (topic : string)
    (records : list record) : list string :=
  let years := List.map year_of records in
  (if (Z.of_nat (length records) <? min_years)%Z
   then ["Topic '" +:+ topic +:+ "' has only " +:+ pretty (length records)
         +:+ " years of data (minimum " +:+ pretty min_years +:+ " required)"]
   else [])
  ++ (if bool_decide (length (remove_dups years) = length years)
      then []
      else ["Topic '" +:+ topic +:+ "' has duplicate years"])
  ++ flat_map (record_errors topic) records.

(** [DataLoader.validate_data]. *)
Definition validate_data (data : dataset) (min_years : Z) : list string :=
  match data with
  | [] => ["No data loaded"]
  | _ => flat_map (fun '(topic, records) => topic_errors min_years topic records)
           data
  end.

(** A row of the CSV file after the [int(...)] conversions:
    [(topic, (year, frequency, total_questions))]. *)
Definition row : Type := string * record.

(** [if topic not in data: data[topic] = []] and
    [data[topic].append(r)]. *)
Fixpoint add_row (data : dataset) (topic : string) (r : record) : dataset :=
  match data with
  | [] => [(topic, [r])]
  | (k, records) :: rest =>
      if String.eqb k topic then (k, records ++ [r]) :: rest
      else (k, records) :: add_row rest topic r
  end.

(** [records.sort(key=lambda x: x[0])]: a stable sort by year, written as
    insertion from the right, where a record goes in front of the records
    of the same year that came after it. *)
Fixpoint insert_by_year (r : record) (sorted : list record) : list record :=
  match sorted with
  | [] => [r]
  | x :: rest =>
      if (year_of r <=? year_of x)%Z then r :: x :: rest
      else x :: insert_by_year r rest
  end.

Definition sort_by_year (records : list record) : list record :=
  fold_right insert_by_year [] records.

(** [DataLoader.load_csv_data] on the rows of an existing file, in file
    order.  Reading the file, the conversion of the fields and the cache
    are left out. *)
Definition load_csv_data (rows : list row) : dataset :=
  let data :=
    fold_left (fun data '(topic, r) => add_row data topic r) rows [] in
  List.map (fun '(topic, records) => (topic, sort_by_year records)) data.

(** A topic info dictionary of [get_available_topics]. *)
Record TopicInfo : Type := {
  id : string;
  name : string;
  years_available : nat;
  latest_year : Z
}.

(** [max(years)]: raises on an empty list. *)
Definition max_of (years : list Z) : exc Z :=
  match years with
  | [] => Raise (ValueError "max() arg is an empty sequence")
  | y :: ys => Ok (fold_left Z.max ys y)
  end.

(** [s.replace(a, b)] for one-character [a] and [b]. *)
Fixpoint replace_char (a b : Ascii.ascii) (s : string) : string :=
  match s with
  | EmptyString => EmptyString
  | String x s' =>
      String (if Ascii.eqb x a then b else x) (replace_char a b s')
  end.

(** The characters [" "] and ["-"]. *)
Definition space : Ascii.ascii := Ascii.ascii_of_nat 32.
Definition hyphen : Ascii.ascii := Ascii.ascii_of_nat 45.

Section AvailableTopics.

(** The builtin [str.lower]; its case mapping is not reproduced. *)
Variable str_lower : string -> string.

(** [DataLoader.get_available_topics]. *)
Fixpoint get_available_topics (data : dataset) (min_years : Z)
    : exc (list TopicInfo) :=
  match data with
  | [] => Ok []
  | (topic_name, records) :: rest =>
      if (min_years <=? Z.of_nat (length records))%Z
      then
        latest_year ← max_of (List.map year_of records);
        topics ← get_available_topics rest min_years;
        Ok ({| id := replace_char space hyphen (str_lower topic_name);
               name := topic_name;
               years_available := length records;
               latest_year := latest_year |} :: topics)
      else get_available_topics rest min_years
  end.

End AvailableTopics.

End DataLoader.

(* ================================================================== *)
(** ** Command line ([cli/main.py]) *)

Module Cli.

(** The arguments of the [predict] command that the body reads after the
    data file is loaded. *)
Record PredictArgs : Type := {
  topics : list string;
  historical_years : Z;
  confidence : Q;
  force_classical : bool;
  min_years : Z
}.

(** The loop that prepares [historical_data]: a requested topic enters
    the dictionary when its list of frequencies is not empty. *)
Definition prepare_historical_data (raw_data : DataLoader.dataset)
    (ts : list string) : gmap string (list Q) :=
  fold_left
    (fun historical_data topic =>
       match DataLoader.get_topic_frequencies raw_data topic with
       | [] => historical_data
       | frequencies => <[topic := frequencies]> historical_data
       end)
    ts ∅.

(** How [predict_command] ends once the data file is loaded. *)
Inductive Outcome : Type :=
| ValidationFailed (errors : list string)
| NoHistoricalData
| Predicted (response : VQEPredictionResponse)
| Failed (e : exn).

(** The value [predict_command] returns. *)
Definition exit_code (o : Outcome) : Z :=
  match o with Predicted _ => 0 | _ => 1 end.

(** [predict_command], for a command line without [--output], from the
    validation of the loaded [raw_data] to the response of the predictor;
    reading the file before and printing after are not part of it.
    [qiskit_available] and [vqe] are what the predictor it creates runs
    on. *)
Definition predict_command (settings : Settings) (qiskit_available : bool)
    (vqe : vqe_backend) (raw_data : DataLoader.dataset) (args : PredictArgs)
    (start_time end_time : Q) : Outcome :=
  match DataLoader.validate_data raw_data (min_years args) with
  | _ :: _ as errors => ValidationFailed errors
  | [] =>
      let historical_data := prepare_historical_data raw_data (topics args) in
      if bool_decide (historical_data = ∅) then NoHistoricalData
      else
        let request :=
          Build_PredictionRequest (topics args) (historical_years args)
            (confidence args) (force_classical args) in
        let predictor :=
          VQEPredictor_init settings qiskit_available None None in
        match predict_topics predictor settings vqe request historical_data
                start_time end_time with
        | Ok (response, _) => Predicted response
        | Raise e => Failed e
        end
  end.

End Cli.

(** [predict_command] over the orchestrator with its logger. *)
Module LoggedCli.

Definition predict_command (fmt : Loguru.str_format) (settings : Settings)
    (qiskit_available : bool) (vqe : vqe_backend)
    (raw_data : DataLoader.dataset) (args : Cli.PredictArgs)
    (start_time end_time : Q) : Cli.Outcome :=
  match DataLoader.validate_data raw_data (Cli.min_years args) with
  | _ :: _ as errors => Cli.ValidationFailed errors
  | [] =>
      let historical_data :=
        Cli.prepare_historical_data raw_data (Cli.topics args) in
      if bool_decide (historical_data = ∅) then Cli.NoHistoricalData
      else
        let request :=
          Build_PredictionRequest (Cli.topics args) (Cli.historical_years args)
            (Cli.confidence args) (Cli.force_classical args) in
        let predictor :=
          VQEPredictor_init settings qiskit_available None None in
        match Logged.predict_topics fmt predictor settings vqe request
                historical_data start_time end_time with
        | Ok (response, _) => Cli.Predicted response
        | Raise e => Cli.Failed e
        end
  end.

End LoggedCli.

(** What [validate_data] checks of a record and of an item. *)
Definition valid_record (r : DataLoader.record) : Prop :=
  let '(_, freq, total) := r in (0 <= freq <= total)%Z /\ (0 < total)%Z.

Definition valid_item (min_years : Z) (item : string * list DataLoader.record)
    : Prop :=
  (min_years <= Z.of_nat (length item.2))%Z
  /\ NoDup (List.map DataLoader.year_of item.2)
  /\ Forall valid_record item.2.

(** The records of the rows of one topic, in file order. *)
Definition rows_of (rows : list DataLoader.row) (t : string)
    : list DataLoader.record :=
  List.map snd (List.filter (fun row : DataLoader.row => String.eqb row.1 t) rows).

(** The rows of a small data file, two topics over three years, and the
    arguments of a predict command on it. *)
Definition csv_rows : list DataLoader.row :=
  [("algebra", (2021, 20, 100)%Z); ("physics", (2020, 10, 100)%Z);
   ("algebra", (2020, 25, 100)%Z); ("algebra", (2022, 30, 100)%Z);
   ("physics", (2021, 12, 100)%Z); ("physics", (2022, 15, 100)%Z)].

Definition csv_args : Cli.PredictArgs :=
  {| Cli.topics := ["algebra"; "chemistry"]; Cli.historical_years := 5;
     Cli.confidence := 0.95; Cli.force_classical := true;
     Cli.min_years := 3 |}.

Definition empty_request : Api.PredictionRequest :=
  {| Api.topics := []; Api.confidence_level := 0.95;
     Api.force_classical := false |}.

(* ================================================================== *)
(** * Properties *)

#[global] Arguments _classical_prediction : simpl never.
#[global] Arguments _quantum_prediction : simpl never.

(** ** The error monad *)

Lemma bind_Ok {A B} (a : A) (k : A -> exc B) : (x ← Ok a; k x) = k a.
Proof. reflexivity. Qed.

Lemma bind_Raise {A B} (e : exn) (k : A -> exc B) :
  (x ← Raise e; k x) = Raise e.
Proof. reflexivity. Qed.

(** ** Builtins *)

Lemma Py_max_lower a b : a <= Py.max a b.
Proof. unfold Py.max. destruct (Qlt_le_dec a b); lra. Qed.

Lemma Py_min_upper a b : Py.min a b <= a.
Proof. unfold Py.min. destruct (Qlt_le_dec b a); lra. Qed.

(** ** The estimators *)

Lemma classical_short self t data c :
  (length data < 2)%nat ->
  _classical_prediction self t data c = Raise insufficient_data.
Proof.
  intros H. unfold _classical_prediction.
  destruct (Nat.ltb_spec (length data) 2) as [_|Hge]; [reflexivity | lia].
Qed.

Lemma classical_long self t data c :
  (2 <= length data)%nat ->
  exists r, _classical_prediction self t data c = Ok r
            /\ topic r = t /\ method r = "classical".
Proof.
  intros H. unfold _classical_prediction.
  destruct (Nat.ltb_spec (length data) 2) as [Hlt|_]; [lia|].
  destruct (NumPy.polyfit1 _ _) as [slope intercept].
  eexists; split; [reflexivity|]. split; reflexivity.
Qed.

Lemma quantum_result self vqe t data c r :
  _quantum_prediction self vqe t data c = Ok r ->
  topic r = t /\ method r = "quantum".
Proof.
  unfold _quantum_prediction.
  destruct (negb (quantum_available self)); [discriminate|].
  destruct (vqe _ _ _) as [eig|e]; [|discriminate].
  rewrite bind_Ok. intros [= <-]. split; reflexivity.
Qed.

(** ** The loop of the orchestrator *)

Section Loop.

Variable self : VQEPredictor.
Variable settings : Settings.
Variable vqe : vqe_backend.
Variable request : PredictionRequest.
Variable historical_data : gmap string (list Q).

Local Abbreviation body := (loop_body self settings vqe request historical_data).
Local Abbreviation loop := (for_topics self settings vqe request historical_data).

(** An iteration never raises, and what it appends to the predictions
    and to the log does not depend on the state it starts from. *)
Lemma loop_body_adds (st : loop_state) (t : string) :
  exists ps ls,
    body ([], []) t = Ok (ps, ls) /\ body st t = Ok (st.1 ++ ps, st.2 ++ ls).
Proof.
  destruct st as [ps0 ls0]. unfold loop_body.
  destruct (historical_data !! t) as [data|].
  2:{ exists [], [TopicNotFound t]. split; [reflexivity|].
      unfold emit; simpl. by rewrite app_nil_r. }
  destruct (Z.of_nat (length data) <? min_historical_years settings)%Z.
  { eexists [], [_]. split; [reflexivity|].
    unfold emit; simpl. by rewrite app_nil_r. }
  destruct (quantum_available self && negb (force_classical request)).
  - destruct (_quantum_prediction self vqe t data (confidence_level request))
      as [r|e].
    + exists [r], [QuantumCompleted t]. split; reflexivity.
    + rewrite !bind_Raise. unfold try_except at 1 3.
      destruct (_classical_prediction self t data (confidence_level request))
        as [r|e2].
      * eexists [_], [_; _]. split; [reflexivity|].
        unfold emit, append; simpl. by rewrite <- app_assoc.
      * eexists [], [_; _]. split; [reflexivity|].
        unfold emit; simpl. by rewrite app_nil_r, <- app_assoc.
  - destruct (_classical_prediction self t data (confidence_level request))
      as [r|e].
    + exists [r], [ClassicalCompleted t]. split; reflexivity.
    + eexists [], [_; _]. split; [reflexivity|].
      unfold emit; simpl. by rewrite app_nil_r, <- app_assoc.
Qed.

Lemma for_topics_adds (ts : list string) (st : loop_state) :
  exists ps ls,
    loop ts ([], []) = Ok (ps, ls) /\ loop ts st = Ok (st.1 ++ ps, st.2 ++ ls).
Proof.
  revert st. induction ts as [|t ts IH]; intros st.
  - exists [], []. split; [reflexivity|]. simpl.
    destruct st; simpl. by rewrite !app_nil_r.
  - destruct (loop_body_adds st t) as (ps & ls & H0 & Hst).
    destruct (IH (ps, ls)) as (ps' & ls' & H0' & Hst').
    destruct (IH (st.1 ++ ps, st.2 ++ ls)) as (ps'' & ls'' & H0'' & Hst'').
    rewrite H0' in H0''. injection H0'' as <- <-.
    exists (ps ++ ps'), (ls ++ ls'). simpl.
    rewrite H0, Hst, !bind_Ok. split; [exact Hst'|].
    rewrite Hst''. simpl. by rewrite !app_assoc.
Qed.

Lemma for_topics_app (l1 l2 : list string) (st : loop_state) :
  loop (l1 ++ l2) st = (st' ← loop l1 st; loop l2 st').
Proof.
  revert st. induction l1 as [|t l1 IH]; intros st; [reflexivity|].
  simpl. destruct (body st t) as [st'|e]; [|reflexivity].
  rewrite !bind_Ok. apply IH.
Qed.

End Loop.

(** The iteration for an eligible topic on the classical path. *)
Lemma loop_body_classical_path self settings vqe request hd st t data r :
  quantum_available self = false \/ force_classical request = true ->
  hd !! t = Some data ->
  (min_historical_years settings <= Z.of_nat (length data))%Z ->
  _classical_prediction self t data (confidence_level request) = Ok r ->
  loop_body self settings vqe request hd st t
    = Ok (append r (emit (ClassicalCompleted t) st)).
Proof.
  intros Hpath Hd Hlen Hr. unfold loop_body. rewrite Hd.
  destruct (Z.ltb_spec (Z.of_nat (length data)) (min_historical_years settings));
    [lia|].
  replace (quantum_available self && negb (force_classical request))
    with false by (destruct Hpath as [-> | ->]; [|rewrite andb_false_r]; done).
  by rewrite Hr.
Qed.

(** ** The batch flag *)

(** C1 (fails on the code).  A batch that is explicitly forced classical and
    whose only topic succeeds classically is answered with method
    "classical" and, against the claim, with [fallback_used = true]: the
    flag is computed from the result methods, and "classical" counts. *)
Theorem forced_classical_is_flagged_fallback
    (self : VQEPredictor) (vqe : vqe_backend) (t0 t1 : Q) :
  exists resp lg,
    predict_topics self default_settings vqe forced_request sample_data t0 t1
      = Ok (resp, lg)
    /\ List.map method (predictions resp) = ["classical"]
    /\ lg = [StartingPrediction; ClassicalCompleted "quantum-mechanics"]
    /\ fallback_used resp = true.
Proof.
  destruct (classical_long self "quantum-mechanics" [15; 18; 22; 25; 28] 0.95)
    as (r & Hr & _ & Hm); [simpl; lia|].
  assert (Hd : sample_data !! "quantum-mechanics" = Some [15; 18; 22; 25; 28])
    by (vm_compute; reflexivity).
  unfold predict_topics.
  change (topics forced_request) with ["quantum-mechanics"].
  unfold for_topics.
  rewrite (loop_body_classical_path self default_settings vqe forced_request
             sample_data _ _ _ r (or_intror eq_refl) Hd);
    [|simpl; lia|exact Hr].
  rewrite !bind_Ok. eexists _, _. split; [reflexivity|]. simpl.
  rewrite Hm. repeat split; reflexivity.
Qed.

(** ** The classical interval *)

(** C3 (fails on the code).  On the series 60, 80, 100 the fitted line
    predicts 120: the estimator returns importance 1 and the interval
    (1.2, 1), so the lower bound exceeds both the importance and 1.  Only
    the lower bound is clamped at 0 and only the upper bound at 1. *)
Theorem classical_interval_escapes_unit_range
    (self : VQEPredictor) (t : string) (c : Q) :
  exists r,
    _classical_prediction self t [60; 80; 100] c = Ok r
    /\ importance r == 1
    /\ (confidence_interval r).1 == 1.2
    /\ (confidence_interval r).2 == 1
    /\ ~ (confidence_interval r).1 <= importance r
    /\ ~ (confidence_interval r).1 <= 1.
Proof.
  eexists. split; [vm_compute; reflexivity|]. simpl.
  repeat split; try (vm_compute; reflexivity);
    intros H; vm_compute in H; apply H; reflexivity.
Qed.

(** ** Recovery from a failing quantum estimation *)

Lemma any_classical_app ps qs :
  any_classical (ps ++ qs) = any_classical ps || any_classical qs.
Proof. apply existsb_app. Qed.

Lemma loop_body_quantum_raises self settings vqe request hd t data e :
  quantum_available self = true -> force_classical request = false ->
  hd !! t = Some data ->
  (min_historical_years settings <= Z.of_nat (length data))%Z ->
  _quantum_prediction self vqe t data (confidence_level request) = Raise e ->
  loop_body self settings vqe request hd ([], []) t =
    Ok match _classical_prediction self t data (confidence_level request) with
       | Ok r => ([set_method r "classical_fallback"],
                  [ErrorPredicting t e; FallbackSuccessful t])
       | Raise e2 => ([], [ErrorPredicting t e; FallbackFailed t e2])
       end.
Proof.
  intros Hq Hf Hd Hlen Hr. unfold loop_body. rewrite Hd.
  destruct (Z.ltb_spec (Z.of_nat (length data)) (min_historical_years settings));
    [lia|].
  rewrite Hq, Hf, Hr. simpl.
  destruct (_classical_prediction self t data (confidence_level request));
    reflexivity.
Qed.

(** The loop around a topic [t] whose quantum estimation raises, in a
    batch [l1 ++ t :: l2] on the quantum path: the predictions are those
    of the batch [l1] alone, then what the in-line classical estimation of
    [t] gives, then those of the batch [l2] alone. *)
Lemma predict_topics_quantum_failure
    (self : VQEPredictor) (settings : Settings) (vqe : vqe_backend)
    (request : PredictionRequest) (hd : gmap string (list Q)) (t0 t1 : Q)
    (l1 l2 : list string) (t : string) (data : list Q) (e : exn) :
  topics request = l1 ++ t :: l2 ->
  quantum_available self = true ->
  force_classical request = false ->
  hd !! t = Some data ->
  (min_historical_years settings <= Z.of_nat (length data))%Z ->
  _quantum_prediction self vqe t data (confidence_level request) = Raise e ->
  exists resp lg r1 lg1 r2 lg2,
    predict_topics self settings vqe request hd t0 t1 = Ok (resp, lg)
    /\ predict_topics self settings vqe (with_topics request l1) hd t0 t1
       = Ok (r1, lg1)
    /\ predict_topics self settings vqe (with_topics request l2) hd t0 t1
       = Ok (r2, lg2)
    /\ match _classical_prediction self t data (confidence_level request) with
       | Ok r =>
           predictions resp =
             predictions r1 ++ [set_method r "classical_fallback"]
               ++ predictions r2
           /\ fallback_used resp = true
           /\ In (FallbackSuccessful t) lg
       | Raise e2 =>
           predictions resp = predictions r1 ++ predictions r2
           /\ In (FallbackFailed t e2) lg
       end.
Proof.
  intros Ht Hq Hf Hd Hlen Hr.
  pose proof (loop_body_quantum_raises self settings vqe request hd t data e
                Hq Hf Hd Hlen Hr) as Hbody.
  set (st0 := ([], [StartingPrediction]) : loop_state).
  destruct (for_topics_adds self settings vqe request hd l1 st0)
    as (ps1 & ls1 & H1z & H1).
  destruct (loop_body_adds self settings vqe request hd
              (st0.1 ++ ps1, st0.2 ++ ls1) t) as (pt & lt & Htz & Htst).
  destruct (for_topics_adds self settings vqe request hd l2
              ((st0.1 ++ ps1) ++ pt, (st0.2 ++ ls1) ++ lt))
    as (ps2 & ls2 & H2z & H2).
  destruct (for_topics_adds self settings vqe request hd l2 st0)
    as (ps2' & ls2' & H2z' & H2').
  rewrite H2z in H2z'. injection H2z' as <- <-.
  assert (Hall : for_topics self settings vqe request hd (topics request) st0
                 = Ok (ps1 ++ pt ++ ps2, ((st0.2 ++ ls1) ++ lt) ++ ls2)).
  { rewrite Ht, for_topics_app, H1, bind_Ok. simpl for_topics.
    simpl in Htst. simpl. rewrite Htst, bind_Ok. simpl in H2. rewrite H2.
    by rewrite <- app_assoc. }
  unfold predict_topics. fold st0.
  change (topics (with_topics request l1)) with l1.
  change (topics (with_topics request l2)) with l2.
  change (for_topics self settings vqe (with_topics request l1) hd)
    with (for_topics self settings vqe request hd).
  change (for_topics self settings vqe (with_topics request l2) hd)
    with (for_topics self settings vqe request hd).
  rewrite Hall, H1, H2', !bind_Ok.
  eexists _, _, _, _, _, _. do 3 (split; [reflexivity|]).
  simpl. rewrite Htz in Hbody.
  destruct (_classical_prediction self t data (confidence_level request))
    as [r|e2]; injection Hbody as -> ->.
  - split; [reflexivity|]. split.
    + rewrite !any_classical_app. simpl. by rewrite !orb_true_r.
    + simpl. rewrite ?in_app_iff. simpl. intuition.
  - split; [reflexivity|].
    simpl. rewrite ?in_app_iff. simpl. intuition.
Qed.

(** ** Eligibility: the two guards at the head of the loop *)

Section Batch.

Variable self : VQEPredictor.
Variable settings : Settings.
Variable vqe : vqe_backend.
Variable request : PredictionRequest.
Variable hd : gmap string (list Q).

Local Abbreviation body := (loop_body self settings vqe request hd).
Local Abbreviation loop := (for_topics self settings vqe request hd).

Lemma for_topics_cons (t : string) (ts : list string) (st : loop_state) :
  exists pt lt ps ls,
    body ([], []) t = Ok (pt, lt)
    /\ loop ts ([], []) = Ok (ps, ls)
    /\ loop (t :: ts) st = Ok (st.1 ++ pt ++ ps, st.2 ++ lt ++ ls).
Proof.
  destruct (loop_body_adds self settings vqe request hd st t)
    as (pt & lt & H0 & Hst).
  destruct (for_topics_adds self settings vqe request hd ts
              (st.1 ++ pt, st.2 ++ lt)) as (ps & ls & H0' & Hst').
  exists pt, lt, ps, ls. split; [done|]. split; [done|].
  simpl. rewrite Hst, bind_Ok, Hst'. simpl. by rewrite <- !app_assoc.
Qed.

(** A property of what every single iteration appends holds of what the
    whole loop appends. *)
Lemma for_topics_Forall (P : PredictionResult -> Prop) (L : log_record -> Prop) :
  (forall t ps ls, body ([], []) t = Ok (ps, ls) -> Forall P ps /\ Forall L ls) ->
  forall ts ps ls,
    loop ts ([], []) = Ok (ps, ls) -> Forall P ps /\ Forall L ls.
Proof.
  intros Hbody ts. induction ts as [|t ts IH]; intros ps ls Hloop.
  - injection Hloop as <- <-. split; constructor.
  - destruct (for_topics_cons t ts ([], [])) as (pt & lt & ps' & ls' & Hb & Hl & Hc).
    rewrite Hc in Hloop. injection Hloop as <- <-.
    destruct (Hbody _ _ _ Hb) as [HP HL].
    destruct (IH _ _ Hl) as [HP' HL'].
    split; apply Forall_app; auto.
Qed.

(** A skipped topic: a warning, no result, no exception. *)
Lemma loop_body_ineligible (t : string) :
  eligible settings hd t = false ->
  exists w, body ([], []) t = Ok ([], [w]) /\ log_level w = WARNING.
Proof.
  unfold eligible, loop_body. destruct (hd !! t) as [data|].
  - destruct (Z.of_nat (length data) <? min_historical_years settings)%Z;
      [|discriminate].
    intros _. eexists. split; reflexivity.
  - intros _. eexists. split; reflexivity.
Qed.

(** Every result of an iteration is a result for the topic of the
    iteration, and that topic is eligible. *)
Lemma loop_body_topic (t : string) ps ls :
  body ([], []) t = Ok (ps, ls) ->
  Forall (fun p => topic p = t /\ eligible settings hd t = true) ps.
Proof.
  destruct (eligible settings hd t) eqn:He.
  2:{ destruct (loop_body_ineligible t He) as (w & -> & _).
      intros [= <- <-]. constructor. }
  revert He. unfold eligible, loop_body. destruct (hd !! t) as [data|]; [|done].
  destruct (Z.of_nat (length data) <? min_historical_years settings)%Z; [done|].
  intros _.
  destruct (quantum_available self && negb (force_classical request)).
  - destruct (_quantum_prediction self vqe t data (confidence_level request))
      as [r|e] eqn:Hq.
    + intros [= <- <-]. repeat constructor.
      eapply quantum_result; eauto.
    + rewrite bind_Raise. unfold try_except at 1.
      destruct (_classical_prediction self t data (confidence_level request))
        as [r|e2] eqn:Hc; intros [= <- <-]; [|constructor].
      repeat constructor. simpl.
      destruct (Nat.lt_ge_cases (length data) 2) as [Hlt|Hge].
      * rewrite classical_short in Hc by done. discriminate.
      * destruct (classical_long self t data (confidence_level request) Hge)
          as (r' & Hr' & Ht & _). congruence.
  - destruct (_classical_prediction self t data (confidence_level request))
      as [r|e] eqn:Hc.
    + intros [= <- <-]. repeat constructor.
      destruct (Nat.lt_ge_cases (length data) 2) as [Hlt|Hge].
      * rewrite classical_short in Hc by done. discriminate.
      * destruct (classical_long self t data (confidence_level request) Hge)
          as (r' & Hr' & Ht & _). congruence.
    + rewrite !bind_Raise. unfold try_except.
      intros [= <- <-]. constructor.
Qed.

(** An eligible topic with at least two observations yields exactly one
    result, whatever the quantum side does. *)
Lemma loop_body_eligible (t : string) (data : list Q) :
  hd !! t = Some data ->
  (min_historical_years settings <= Z.of_nat (length data))%Z ->
  (2 <= length data)%nat ->
  exists p ls,
    body ([], []) t = Ok ([p], ls)
    /\ Forall (fun r => forall t' e2, r <> FallbackFailed t' e2) ls
    /\ (quantum_available self = false \/ force_classical request = true ->
        Forall (fun r => forall t' e, r <> ErrorPredicting t' e) ls).
Proof.
  intros Hd Hlen H2. unfold loop_body. rewrite Hd.
  destruct (Z.ltb_spec (Z.of_nat (length data)) (min_historical_years settings));
    [lia|].
  destruct (classical_long self t data (confidence_level request) H2)
    as (r & Hr & _).
  destruct (quantum_available self && negb (force_classical request)) eqn:Hpath.
  - destruct (_quantum_prediction self vqe t data (confidence_level request))
      as [q|e].
    + eexists _, _. split; [reflexivity|]. split.
      * repeat constructor; discriminate.
      * repeat constructor; discriminate.
    + rewrite bind_Raise. unfold try_except at 1. rewrite Hr.
      eexists _, _. split; [reflexivity|]. split.
      * repeat constructor; discriminate.
      * intros [Hq|Hf]; [rewrite Hq in Hpath | rewrite Hf, andb_false_r in Hpath];
          discriminate.
  - rewrite Hr. eexists _, _. split; [reflexivity|].
    split; repeat constructor; discriminate.
Qed.

(** Results are results of eligible topics. *)
Lemma for_topics_eligible ts ps ls :
  loop ts ([], []) = Ok (ps, ls) ->
  Forall (fun p => eligible settings hd (topic p) = true) ps.
Proof.
  intros Hloop.
  apply (for_topics_Forall
           (fun p => eligible settings hd (topic p) = true) (fun _ => True))
    in Hloop; [tauto|].
  intros t ps' ls' Hb. split; [|by apply Forall_true].
  eapply Forall_impl; [exact (loop_body_topic t ps' ls' Hb)|].
  by intros p [-> ?].
Qed.

(** The batch operation returns for every list of topics. *)
Lemma predict_topics_returns (t0 t1 : Q) :
  exists ps ls,
    loop (topics request) ([], []) = Ok (ps, ls)
    /\ predict_topics self settings vqe request hd t0 t1
       = Ok ({| predictions := ps;
                execution_time_ms := Py.int ((t1 - t0) * 1000);
                fallback_used := any_classical ps |},
             StartingPrediction :: ls).
Proof.
  destruct (for_topics_adds self settings vqe request hd (topics request)
              ([], [StartingPrediction])) as (ps & ls & H0 & Hst).
  exists ps, ls. split; [done|]. unfold predict_topics. by rewrite Hst.
Qed.

End Batch.

(** ** The logger *)

#[global] Arguments Logged._quantum_prediction : simpl never.

Lemma has_brace_app (s1 s2 : string) :
  Loguru.has_brace (s1 +:+ s2) = Loguru.has_brace s1 || Loguru.has_brace s2.
Proof.
  induction s1 as [|a s1 IH]; [reflexivity|].
  simpl. rewrite IH. by rewrite !orb_assoc.
Qed.

Lemma has_brace_prefix (pre t : string) :
  Loguru.has_brace pre = false ->
  Loguru.has_brace (pre +:+ t) = Loguru.has_brace t.
Proof. intros H. by rewrite has_brace_app, H. Qed.

Lemma has_brace_wrap (pre t suf : string) :
  Loguru.has_brace pre = false -> Loguru.has_brace suf = false ->
  Loguru.has_brace (pre +:+ t +:+ suf) = Loguru.has_brace t.
Proof. intros H1 H2. by rewrite !has_brace_app, H1, H2, orb_false_r. Qed.

(** The only braces of a message are those of its topic. *)
Lemma log_message_brace (r : log_record) :
  Loguru.has_brace (log_message r)
  = match r with
    | StartingPrediction => false
    | TopicNotFound t | InsufficientData t _ _ | QuantumCompleted t
    | ClassicalCompleted t | ErrorPredicting t _ | FallbackSuccessful t
    | FallbackFailed t _ => Loguru.has_brace t
    end.
Proof.
  destruct r; unfold log_message;
    first [ reflexivity
          | by apply has_brace_wrap
          | by apply has_brace_prefix ].
Qed.

Lemma log_brace_free fmt message kw :
  Loguru.has_brace message = false -> Loguru.log fmt message kw = Ok tt.
Proof. intros H. unfold Loguru.log. rewrite H. by destruct kw. Qed.

Lemma log_braces fmt message k kw :
  Loguru.has_brace message = true ->
  Loguru.log fmt message (k :: kw) = fmt message (k :: kw).
Proof. intros H. unfold Loguru.log. by rewrite H. Qed.

(** On a topic without braces the logger leaves the estimator and the
    iteration as they are without it. *)
Lemma Logged_quantum_prediction_brace_free fmt self vqe t data c :
  brace_free t ->
  Logged._quantum_prediction fmt self vqe t data c
  = _quantum_prediction self vqe t data c.
Proof.
  intros Ht. unfold Logged._quantum_prediction, _quantum_prediction.
  destruct (negb (quantum_available self)); [reflexivity|].
  destruct (vqe _ _ _) as [eig|e]; [|reflexivity].
  rewrite !bind_Ok.
  rewrite (log_brace_free fmt (log_message (QuantumCompleted t)))
    by (by rewrite log_message_brace).
  reflexivity.
Qed.

Lemma Logged_loop_body_brace_free fmt self settings vqe request hd st t :
  brace_free t ->
  Logged.loop_body fmt self settings vqe request hd st t
  = loop_body self settings vqe request hd st t.
Proof.
  intros Ht. unfold Logged.loop_body, loop_body.
  destruct (hd !! t) as [data|]; [|reflexivity].
  destruct (Z.of_nat (length data) <? min_historical_years settings)%Z.
  { rewrite log_brace_free by (by rewrite log_message_brace). reflexivity. }
  rewrite Logged_quantum_prediction_brace_free by done.
  assert (Hh : forall e,
    (_ ← Loguru.log fmt (log_message (ErrorPredicting t e))
           (Logged.error_kwargs e);
     try_except
       (result ← _classical_prediction self t data (confidence_level request);
        Ok (emit (FallbackSuccessful t)
              (append (set_method result "classical_fallback")
                 (emit (ErrorPredicting t e) st))))
       (fun e2 =>
          _ ← Loguru.log fmt (log_message (FallbackFailed t e2))
                (Logged.error_kwargs e2);
          Ok (emit (FallbackFailed t e2) (emit (ErrorPredicting t e) st))))
    = try_except
        (result ← _classical_prediction self t data (confidence_level request);
         Ok (emit (FallbackSuccessful t)
               (append (set_method result "classical_fallback")
                  (emit (ErrorPredicting t e) st))))
        (fun e2 =>
           Ok (emit (FallbackFailed t e2) (emit (ErrorPredicting t e) st)))).
  { intros e. rewrite log_brace_free by (by rewrite log_message_brace).
    rewrite bind_Ok.
    destruct (_classical_prediction self t data (confidence_level request))
      as [r|e2]; [reflexivity|].
    rewrite !bind_Raise. unfold try_except.
    rewrite log_brace_free by (by rewrite log_message_brace). reflexivity. }
  destruct (quantum_available self && negb (force_classical request)).
  - destruct (_quantum_prediction self vqe t data (confidence_level request))
      as [r|e]; [reflexivity|].
    rewrite !bind_Raise. unfold try_except at 1 3. apply Hh.
  - destruct (_classical_prediction self t data (confidence_level request))
      as [r|e]; [reflexivity|].
    rewrite !bind_Raise. unfold try_except at 1 3. apply Hh.
Qed.

Lemma Logged_for_topics_brace_free fmt self settings vqe request hd ts st :
  Forall brace_free ts ->
  Logged.for_topics fmt self settings vqe request hd ts st
  = for_topics self settings vqe request hd ts st.
Proof.
  intros Hts. revert st. induction Hts as [|t ts Ht _ IH]; intros st;
    [reflexivity|].
  simpl. rewrite Logged_loop_body_brace_free by done.
  destruct (loop_body self settings vqe request hd st t) as [st'|e];
    [|reflexivity].
  rewrite !bind_Ok. apply IH.
Qed.

Lemma Logged_predict_topics_eq fmt self settings vqe request hd t0 t1 :
  Logged.predict_topics fmt self settings vqe request hd t0 t1
  = (st ← Logged.for_topics fmt self settings vqe request hd (topics request)
            ([], [StartingPrediction]);
     Ok ({| predictions := st.1;
            execution_time_ms := Py.int ((t1 - t0) * 1000);
            fallback_used := any_classical st.1 |}, st.2)).
Proof. reflexivity. Qed.

Lemma Logged_predict_topics_brace_free fmt self settings vqe request hd t0 t1 :
  Forall brace_free (topics request) ->
  Logged.predict_topics fmt self settings vqe request hd t0 t1
  = predict_topics self settings vqe request hd t0 t1.
Proof.
  intros Hts. rewrite Logged_predict_topics_eq. unfold predict_topics.
  by rewrite Logged_for_topics_brace_free.
Qed.

Lemma Logged_for_topics_app fmt self settings vqe request hd
    (l1 l2 : list string) (st : loop_state) :
  Logged.for_topics fmt self settings vqe request hd (l1 ++ l2) st
  = (st' ← Logged.for_topics fmt self settings vqe request hd l1 st;
     Logged.for_topics fmt self settings vqe request hd l2 st').
Proof.
  revert st. induction l1 as [|t l1 IH]; intros st; [reflexivity|].
  simpl.
  destruct (Logged.loop_body fmt self settings vqe request hd st t)
    as [st'|e]; [|reflexivity].
  rewrite !bind_Ok. apply IH.
Qed.

(** The error line of the handler, for a topic with a brace: what
    [str.format] raises on the message leaves the iteration. *)
Lemma Logged_loop_body_error_line fmt self settings vqe request hd st t data
    e e' :
  Loguru.has_brace t = true ->
  quantum_available self = true -> force_classical request = false ->
  hd !! t = Some data ->
  (min_historical_years settings <= Z.of_nat (length data))%Z ->
  Logged._quantum_prediction fmt self vqe t data (confidence_level request)
    = Raise e ->
  fmt (log_message (ErrorPredicting t e)) (Logged.error_kwargs e) = Raise e' ->
  Logged.loop_body fmt self settings vqe request hd st t = Raise e'.
Proof.
  intros Hb Hq Hf Hd Hlen Hr Hfmt. unfold Logged.loop_body. rewrite Hd.
  destruct (Z.ltb_spec (Z.of_nat (length data)) (min_historical_years settings));
    [lia|].
  rewrite Hq, Hf, Hr. simpl andb. cbv iota.
  rewrite bind_Raise. unfold try_except at 1.
  assert (Hlog : Loguru.log fmt (log_message (ErrorPredicting t e))
                   (Logged.error_kwargs e) = Raise e').
  { rewrite <- Hfmt. apply log_braces. by rewrite log_message_brace. }
  rewrite Hlog. reflexivity.
Qed.

(** ** A failing quantum estimation, with the logger *)

(** C4 (fails on the code).  Let the quantum estimation of an eligible
    topic [t] raise, in a batch [l1 ++ t :: l2] on the quantum path, and
    let the identifier [t] contain a brace.  The handler first logs the
    error with the topic in the message and the error as a keyword, so the
    message is formatted; when [str.format] raises on it, that exception
    leaves the handler and the batch: [predict_topics] raises, no
    classical recovery is attempted and the results of the topics of [l1]
    are lost. *)
Theorem quantum_failure_error_line_raises
    (fmt : Loguru.str_format) (self : VQEPredictor) (settings : Settings)
    (vqe : vqe_backend) (request : PredictionRequest)
    (hd : gmap string (list Q)) (t0 t1 : Q)
    (l1 l2 : list string) (t : string) (data : list Q) (e e' : exn) :
  topics request = l1 ++ t :: l2 ->
  Forall brace_free l1 ->
  Loguru.has_brace t = true ->
  quantum_available self = true ->
  force_classical request = false ->
  hd !! t = Some data ->
  (min_historical_years settings <= Z.of_nat (length data))%Z ->
  Logged._quantum_prediction fmt self vqe t data (confidence_level request)
    = Raise e ->
  fmt (log_message (ErrorPredicting t e)) (Logged.error_kwargs e) = Raise e' ->
  Logged.predict_topics fmt self settings vqe request hd t0 t1 = Raise e'.
Proof.
  intros Ht Hl1 Hb Hq Hf Hd Hlen Hr Hfmt.
  rewrite Logged_predict_topics_eq, Ht, Logged_for_topics_app.
  rewrite Logged_for_topics_brace_free by done.
  destruct (for_topics_adds self settings vqe request hd l1
              ([], [StartingPrediction])) as (ps & ls & _ & ->).
  rewrite bind_Ok. simpl Logged.for_topics.
  rewrite (Logged_loop_body_error_line fmt self settings vqe request hd _ t
             data e e') by done.
  reflexivity.
Qed.

(** X25.  Let the quantum estimation of an eligible topic [t] raise, in a
    batch [l1 ++ t :: l2] on the quantum path whose identifiers are free
    of braces.  The batch returns, and its predictions are those of the
    batch [l1] alone, then what the in-line classical estimation of [t]
    gives, then those of the batch [l2] alone.  When the classical
    estimator succeeds, the topic has one result, with the method
    "classical_fallback" and the importance, interval and trend of the
    classical result, and the batch flag is set; when it raises too, the
    topic has no result and the log has the error line. *)
Theorem quantum_failure_recovers_as_classical_fallback
    (fmt : Loguru.str_format) (self : VQEPredictor) (settings : Settings)
    (vqe : vqe_backend) (request : PredictionRequest)
    (hd : gmap string (list Q)) (t0 t1 : Q)
    (l1 l2 : list string) (t : string) (data : list Q) (e : exn) :
  topics request = l1 ++ t :: l2 ->
  Forall brace_free (topics request) ->
  quantum_available self = true ->
  force_classical request = false ->
  hd !! t = Some data ->
  (min_historical_years settings <= Z.of_nat (length data))%Z ->
  Logged._quantum_prediction fmt self vqe t data (confidence_level request)
    = Raise e ->
  exists resp lg r1 lg1 r2 lg2,
    Logged.predict_topics fmt self settings vqe request hd t0 t1
      = Ok (resp, lg)
    /\ Logged.predict_topics fmt self settings vqe (with_topics request l1)
         hd t0 t1 = Ok (r1, lg1)
    /\ Logged.predict_topics fmt self settings vqe (with_topics request l2)
         hd t0 t1 = Ok (r2, lg2)
    /\ match _classical_prediction self t data (confidence_level request) with
       | Ok r =>
           exists p,
             predictions resp = predictions r1 ++ p :: predictions r2
             /\ topic p = t
             /\ method p = "classical_fallback"
             /\ importance p = importance r
             /\ confidence_interval p = confidence_interval r
             /\ trend p = trend r
             /\ fallback_used resp = true
             /\ In (FallbackSuccessful t) lg
       | Raise e2 =>
           predictions resp = predictions r1 ++ predictions r2
           /\ In (FallbackFailed t e2) lg
       end.
Proof.
  intros Ht Hbf Hq Hf Hd Hlen Hr.
  assert (Hbf' := Hbf). rewrite Ht in Hbf'.
  apply Forall_app in Hbf' as [Hbf1 Hbf2].
  apply Forall_cons in Hbf2 as [Hbt Hbf2].
  rewrite Logged_quantum_prediction_brace_free in Hr by done.
  rewrite !Logged_predict_topics_brace_free by done.
  destruct (predict_topics_quantum_failure self settings vqe request hd t0 t1
              l1 l2 t data e Ht Hq Hf Hd Hlen Hr)
    as (resp & lg & r1 & lg1 & r2 & lg2 & Hrun & Hrun1 & Hrun2 & Hcase).
  exists resp, lg, r1, lg1, r2, lg2. do 3 (split; [done|]).
  destruct (_classical_prediction self t data (confidence_level request))
    as [r|e2] eqn:Hc; [|exact Hcase].
  destruct Hcase as (Hps & Hfb & Hlg).
  exists (set_method r "classical_fallback").
  split; [exact Hps|]. split.
  { simpl. destruct (Nat.lt_ge_cases (length data) 2) as [Hlt|Hge].
    - rewrite classical_short in Hc by done. discriminate.
    - destruct (classical_long self t data (confidence_level request) Hge)
        as (r' & Hr' & Htop & _). congruence. }
  repeat split; done.
Qed.

(** X26.  A requested topic whose identifier contains a brace and whose
    series is shorter than the threshold: the warning of the second guard
    carries the topic in its message and two keywords, so the message is
    formatted, and what [str.format] raises on it leaves the batch. *)
Theorem short_series_warning_raises
    (fmt : Loguru.str_format) (self : VQEPredictor) (settings : Settings)
    (vqe : vqe_backend) (request : PredictionRequest)
    (hd : gmap string (list Q)) (t0 t1 : Q)
    (l1 l2 : list string) (t : string) (data : list Q) (e' : exn) :
  topics request = l1 ++ t :: l2 ->
  Forall brace_free l1 ->
  Loguru.has_brace t = true ->
  hd !! t = Some data ->
  (Z.of_nat (length data) < min_historical_years settings)%Z ->
  fmt (log_message (InsufficientData t (length data)
                      (min_historical_years settings)))
    [("data_points", Loguru.PyInt (Z.of_nat (length data)));
     ("required", Loguru.PyInt (min_historical_years settings))] = Raise e' ->
  Logged.predict_topics fmt self settings vqe request hd t0 t1 = Raise e'.
Proof.
  intros Ht Hl1 Hb Hd Hlen Hfmt.
  rewrite Logged_predict_topics_eq, Ht, Logged_for_topics_app.
  rewrite Logged_for_topics_brace_free by done.
  destruct (for_topics_adds self settings vqe request hd l1
              ([], [StartingPrediction])) as (ps & ls & _ & ->).
  rewrite bind_Ok. simpl Logged.for_topics.
  unfold Logged.loop_body. rewrite Hd.
  destruct (Z.ltb_spec (Z.of_nat (length data)) (min_historical_years settings));
    [|lia].
  rewrite log_braces by (by rewrite log_message_brace).
  rewrite Hfmt. reflexivity.
Qed.

(** ** Skipped topics *)

(** The two guards in the loop: no result belongs to a topic that is
    absent from the historical data or whose series is shorter than the
    threshold, and of two topics of which one is eligible with a series of
    at least two observations and the other is not eligible, exactly one
    has a result. *)
Lemma predict_topics_skips_ineligible
    (self : VQEPredictor) (settings : Settings) (vqe : vqe_backend)
    (request : PredictionRequest) (hd : gmap string (list Q)) (t0 t1 : Q) :
  exists resp lg,
    predict_topics self settings vqe request hd t0 t1 = Ok (resp, lg)
    /\ (forall t p,
          eligible settings hd t = false ->
          In p (predictions resp) -> topic p <> t)
    /\ (forall a b data,
          topics request = [a; b] \/ topics request = [b; a] ->
          hd !! a = Some data ->
          (min_historical_years settings <= Z.of_nat (length data))%Z ->
          (2 <= length data)%nat ->
          eligible settings hd b = false ->
          length (predictions resp) = 1%nat).
Proof.
  destruct (predict_topics_returns self settings vqe request hd t0 t1)
    as (ps & ls & Hloop & ->).
  eexists _, _. split; [reflexivity|]. simpl. split.
  - intros t p He Hin Ht.
    pose proof (for_topics_eligible self settings vqe request hd _ _ _ Hloop)
      as HP.
    rewrite List.Forall_forall in HP. specialize (HP p Hin).
    rewrite Ht, He in HP. discriminate.
  - intros a b data Hts Hd Hlen H2 Hb.
    destruct (loop_body_eligible self settings vqe request hd a data Hd Hlen H2)
      as (p & la & Ha & _).
    destruct (loop_body_ineligible self settings vqe request hd b Hb)
      as (w & Hw & _).
    destruct Hts as [Hts|Hts]; rewrite Hts in Hloop.
    + destruct (for_topics_cons self settings vqe request hd a [b] ([], []))
        as (pt & lt & ps' & ls' & Hb1 & Hl1 & Hc1).
      destruct (for_topics_cons self settings vqe request hd b [] ([], []))
        as (pt2 & lt2 & ps2 & ls2 & Hb2 & Hl2 & Hc2).
      rewrite Hc2 in Hl1. rewrite Hc1 in Hloop.
      rewrite Ha in Hb1. rewrite Hw in Hb2.
      injection Hloop as <- <-. injection Hl1 as <- <-.
      injection Hl2 as <- <-. injection Hb1 as <- <-. injection Hb2 as <- <-.
      reflexivity.
    + destruct (for_topics_cons self settings vqe request hd b [a] ([], []))
        as (pt & lt & ps' & ls' & Hb1 & Hl1 & Hc1).
      destruct (for_topics_cons self settings vqe request hd a [] ([], []))
        as (pt2 & lt2 & ps2 & ls2 & Hb2 & Hl2 & Hc2).
      rewrite Hc2 in Hl1. rewrite Hc1 in Hloop.
      rewrite Hw in Hb1. rewrite Ha in Hb2.
      injection Hloop as <- <-. injection Hl1 as <- <-.
      injection Hl2 as <- <-. injection Hb1 as <- <-. injection Hb2 as <- <-.
      reflexivity.
Qed.

(** C6, as amended.  For a batch whose topic identifiers are free of
    braces, the batch returns, and no result of the response belongs to a
    topic that is absent from the historical data or whose series is
    shorter than the threshold.  A request for two topics of which one is
    eligible with a series of at least two observations, and the other is
    not eligible, is answered with exactly one result. *)
Theorem ineligible_topics_are_skipped
    (fmt : Loguru.str_format) (self : VQEPredictor) (settings : Settings)
    (vqe : vqe_backend) (request : PredictionRequest)
    (hd : gmap string (list Q)) (t0 t1 : Q) :
  Forall brace_free (topics request) ->
  exists resp lg,
    Logged.predict_topics fmt self settings vqe request hd t0 t1
      = Ok (resp, lg)
    /\ (forall t p,
          eligible settings hd t = false ->
          In p (predictions resp) -> topic p <> t)
    /\ (forall a b data,
          topics request = [a; b] \/ topics request = [b; a] ->
          hd !! a = Some data ->
          (min_historical_years settings <= Z.of_nat (length data))%Z ->
          (2 <= length data)%nat ->
          eligible settings hd b = false ->
          length (predictions resp) = 1%nat).
Proof.
  intros Hbf. rewrite Logged_predict_topics_brace_free by done.
  apply predict_topics_skips_ineligible.
Qed.

(** ** The defensive check of the classical estimator *)

Lemma classical_raises_iff self t data c :
  _classical_prediction self t data c = Raise insufficient_data
  <-> (length data < 2)%nat.
Proof.
  split; [|apply classical_short].
  intros H. destruct (Nat.lt_ge_cases (length data) 2) as [|Hge]; [done|].
  destruct (classical_long self t data c Hge) as (r & Hr & _). congruence.
Qed.

(** With a minimum-years threshold of at least 2 the loop never meets
    the error of the classical estimator: no classical recovery fails, and
    on the classical path no estimation fails at all. *)
Lemma predict_topics_threshold_two
    (self : VQEPredictor) (settings : Settings) (vqe : vqe_backend)
    (request : PredictionRequest) (hd : gmap string (list Q)) (t0 t1 : Q) :
  (2 <= min_historical_years settings)%Z ->
  (forall t data c,
     (exists e, _classical_prediction self t data c = Raise e)
     <-> (length data < 2)%nat)
  /\ (forall t data c e,
        _classical_prediction self t data c = Raise e -> e = insufficient_data)
  /\ exists resp lg,
       predict_topics self settings vqe request hd t0 t1 = Ok (resp, lg)
       /\ (forall t e2, ~ In (FallbackFailed t e2) lg)
       /\ (quantum_available self = false \/ force_classical request = true ->
           forall t e, ~ In (ErrorPredicting t e) lg).
Proof.
  intros Hmin.
  assert (Hexn : forall t data c e,
             _classical_prediction self t data c = Raise e ->
             e = insufficient_data /\ (length data < 2)%nat).
  { intros t data c e H.
    destruct (Nat.lt_ge_cases (length data) 2) as [Hlt|Hge].
    - rewrite classical_short in H by done. split; congruence.
    - destruct (classical_long self t data c Hge) as (r & Hr & _). congruence. }
  split; [|split].
  - intros t data c. split.
    + intros [e H]. apply Hexn in H. tauto.
    + intros H. eexists. by apply classical_short.
  - intros t data c e H. apply Hexn in H. tauto.
  - destruct (predict_topics_returns self settings vqe request hd t0 t1)
      as (ps & ls & Hloop & ->).
    eexists _, _. split; [reflexivity|].
    apply (for_topics_Forall self settings vqe request hd (fun _ => True)
             (fun r => (forall t e2, r <> FallbackFailed t e2)
                       /\ (quantum_available self = false
                           \/ force_classical request = true ->
                           forall t e, r <> ErrorPredicting t e)))
      in Hloop.
    + destruct Hloop as [_ HL]. rewrite List.Forall_forall in HL. split.
      * intros t e2 [Heq|Hin]; [discriminate|].
        by apply (proj1 (HL _ Hin) t e2).
      * intros Hpath t e [Heq|Hin]; [discriminate|].
        by apply (proj2 (HL _ Hin) Hpath t e).
    + intros t ps' ls' Hb. split; [by apply Forall_true|].
      destruct (eligible settings hd t) eqn:He.
      * unfold eligible in He. destruct (hd !! t) as [data|] eqn:Hd; [|done].
        destruct (Z.ltb_spec (Z.of_nat (length data))
                    (min_historical_years settings)); [done|].
        destruct (loop_body_eligible self settings vqe request hd t data Hd)
          as (p & l & Hb' & HF & HE); [lia..|].
        rewrite Hb' in Hb. injection Hb as <- <-.
        rewrite List.Forall_forall in *. intros r Hr. split; [by apply HF|].
        intros Hpath. by apply (HE Hpath).
      * destruct (loop_body_ineligible self settings vqe request hd t He)
          as (w & Hw & Hlvl).
        rewrite Hw in Hb. injection Hb as <- <-.
        repeat constructor; intros; intros ->; discriminate.
Qed.

(** C8, as amended.  The classical estimator raises, and then its
    insufficient-data error, exactly when the series has fewer than two
    observations.  With a minimum-years threshold of at least 2 no run of
    the orchestrator on identifiers free of braces meets that error: the
    batch returns, no classical recovery fails, and on the classical path
    no estimation fails at all. *)
Theorem insufficient_data_unreachable
    (fmt : Loguru.str_format) (self : VQEPredictor) (settings : Settings)
    (vqe : vqe_backend) (request : PredictionRequest)
    (hd : gmap string (list Q)) (t0 t1 : Q) :
  (2 <= min_historical_years settings)%Z ->
  Forall brace_free (topics request) ->
  (forall t data c,
     (exists e, _classical_prediction self t data c = Raise e)
     <-> (length data < 2)%nat)
  /\ (forall t data c e,
        _classical_prediction self t data c = Raise e -> e = insufficient_data)
  /\ exists resp lg,
       Logged.predict_topics fmt self settings vqe request hd t0 t1
         = Ok (resp, lg)
       /\ (forall t e2, ~ In (FallbackFailed t e2) lg)
       /\ (quantum_available self = false \/ force_classical request = true ->
           forall t e, ~ In (ErrorPredicting t e) lg).
Proof.
  intros Hmin Hbf. rewrite Logged_predict_topics_brace_free by done.
  by apply predict_topics_threshold_two.
Qed.

(** ** The trend label of the quantum estimator *)




(** ** The interval of the quantum estimator *)

Lemma sqrt_nonneg (q : Q) : 0 <= NumPy.sqrt q.
Proof.
  unfold NumPy.sqrt. apply Qle_shift_div_l; [reflexivity|].
  rewrite Qmult_0_l. change 0 with (inject_Z 0). rewrite <- Zle_Qle.
  apply Z.sqrt_nonneg.
Qed.




(** ** The endpoint: selection policy and hybrid fields *)

Lemma blend_weights_cases (c : Q) :
  (0.95 <= c /\ Api.blend_weights c = (0.9, 0.1))
  \/ (0.90 <= c < 0.95 /\ Api.blend_weights c = (0.7, 0.3))
  \/ (0.85 <= c < 0.90 /\ Api.blend_weights c = (0.6, 0.4))
  \/ (c < 0.85 /\ Api.blend_weights c = (0.4, 0.6)).
Proof.
  unfold Api.blend_weights.
  destruct (Qle_bool 0.95 c) eqn:H1.
  { left. split; [by apply Qle_bool_iff|done]. }
  destruct (Qle_bool 0.90 c) eqn:H2.
  { right; left. split; [|done]. split; [by apply Qle_bool_iff|].
    apply Qnot_le_lt. rewrite <- Qle_bool_iff, H1. discriminate. }
  destruct (Qle_bool 0.85 c) eqn:H3.
  { right; right; left. split; [|done]. split; [by apply Qle_bool_iff|].
    apply Qnot_le_lt. rewrite <- Qle_bool_iff, H2. discriminate. }
  right; right; right. split; [|done].
  apply Qnot_le_lt. rewrite <- Qle_bool_iff, H3. discriminate.
Qed.

(** A locally built dictionary carries the method it was built for and the
    keys that [add_method_fields] gives that method. *)
Lemma local_prediction_fields m c hf t p :
  Api.local_prediction m c hf t = Ok p ->
  Api.method p = m
  /\ Api.quantum_contribution p =
       (if String.eqb m "hybrid" then Some (Api.blend_weights c).1 else None)
  /\ Api.classical_contribution p =
       (if String.eqb m "hybrid" then Some (Api.blend_weights c).2 else None)
  /\ (String.eqb m "hybrid" = true ->
      Api.uncertainty_quantification p =
        Some {| Api.quantum_uncertainty := 0.05;
                Api.classical_uncertainty := 0.03;
                Api.blended_uncertainty := 0.04 |}).
Proof.
  unfold Api.local_prediction.
  destruct (hf !! t) as [series|].
  - destruct (last series); [|discriminate].
    destruct (head series); [|discriminate].
    intros [= <-]. unfold Api.add_method_fields. simpl.
    repeat split. by intros ->.
  - intros [= <-]. unfold Api.add_method_fields. simpl.
    repeat split. by intros ->.
Qed.

Lemma local_predictions_In m c hf ts ps p :
  Api.local_predictions m c hf ts = Ok ps ->
  In p ps -> exists t, In t ts /\ Api.local_prediction m c hf t = Ok p.
Proof.
  revert ps. induction ts as [|t ts IH]; intros ps; simpl.
  - intros [= <-] [].
  - destruct (Api.local_prediction m c hf t) as [q|] eqn:Hq; [|discriminate].
    rewrite bind_Ok.
    destruct (Api.local_predictions m c hf ts) as [qs|]; [|discriminate].
    rewrite bind_Ok. intros [= <-] [<-|Hin].
    + exists t. auto.
    + destruct (IH qs eq_refl Hin) as (t' & ? & ?). exists t'. auto.
Qed.

(** What the endpoint answers with when it takes no predictions over from
    the service call: the dictionaries it builds itself, all for one
    method. *)
Lemma endpoint_local attr service request r :
  Api.predict_topics attr service request = Api.Http200 r ->
  service_predictions service = [] ->
  exists hf,
    Api.local_predictions (Api.method_used r) (Api.confidence_level request)
      hf (Api.topics request) = Ok (Api.predictions r).
Proof.
  unfold Api.predict_topics. destruct (bool_decide _); [discriminate|].
  destruct (Api.method_selection _ _ _) as [m fb].
  intros H Hsp. eexists.
  destruct service as [| e | | sr]; simpl in Hsp; try rewrite Hsp in H;
    match type of H with
    | context [Api.local_predictions ?m ?c ?hf ?ts] =>
        destruct (Api.local_predictions m c hf ts) as [ps|] eqn:Hl
    end; simpl in H; try discriminate; injection H as <-; exact Hl.
Qed.

(** C2 as stated fails: at confidence level 0.95 the endpoint answers the
    request for "quantum-mechanics" with one hybrid result whose weights
    are 0.9 and 0.1 and whose uncertainties are 0.05, 0.03 and 0.04; the
    weighted sum is 0.048, further than 1e-6 from 0.04. *)
Lemma blended_uncertainty_off_weighted_sum :
  exists r p wq wc uq,
    Api.predict_topics (Some true) Api.Falsy hybrid_request = Api.Http200 r
    /\ Api.predictions r = [p]
    /\ Api.method p = "hybrid"
    /\ Api.quantum_contribution p = Some wq
    /\ Api.classical_contribution p = Some wc
    /\ Api.uncertainty_quantification p = Some uq
    /\ ~ Qabs (Api.blended_uncertainty uq
               - (wq * Api.quantum_uncertainty uq
                  + wc * Api.classical_uncertainty uq)) <= 0.000001.
Proof.
  eexists _, _, _, _, _. split; [vm_compute; reflexivity|].
  do 5 (split; [reflexivity|]).
  intros H. vm_compute in H. apply H. reflexivity.
Qed.

(** C2, as amended.  Every hybrid result that the endpoint builds itself
    has contribution weights that sum to 1 and the fixed uncertainties
    0.05 (quantum), 0.03 (classical) and 0.04 (blended); the blended figure
    is within 0.01 of the weighted sum of the other two. *)
Theorem hybrid_fields_of_local_results
    (attr : option bool) (service : Api.ServiceOutcome)
    (request : Api.PredictionRequest) (r : Api.PredictionResponse)
    (p : Api.Prediction) :
  Api.predict_topics attr service request = Api.Http200 r ->
  service_predictions service = [] ->
  In p (Api.predictions r) ->
  Api.method p = "hybrid" ->
  exists wq wc uq,
    Api.quantum_contribution p = Some wq
    /\ Api.classical_contribution p = Some wc
    /\ Api.uncertainty_quantification p = Some uq
    /\ wq + wc == 1
    /\ Api.quantum_uncertainty uq = 0.05
    /\ Api.classical_uncertainty uq = 0.03
    /\ Api.blended_uncertainty uq = 0.04
    /\ Qabs (Api.blended_uncertainty uq
             - (wq * Api.quantum_uncertainty uq
                + wc * Api.classical_uncertainty uq)) <= 0.01.
Proof.
  intros Hr Hsp Hin Hm.
  destruct (endpoint_local attr service request r Hr Hsp) as (hf & Hl).
  destruct (local_predictions_In _ _ _ _ _ p Hl Hin) as (t & _ & Hp).
  destruct (local_prediction_fields _ _ _ _ _ Hp) as (Hmp & Hq & Hc & Huq).
  rewrite Hm in Hmp. rewrite <- Hmp in Hq, Hc, Huq. simpl in Hq, Hc, Huq.
  eexists _, _, _. split; [exact Hq|]. split; [exact Hc|].
  split; [exact (Huq eq_refl)|]. simpl.
  destruct (blend_weights_cases (Api.confidence_level request))
    as [[_ ->]|[[_ ->]|[[_ ->]|[_ ->]]]]; simpl;
    (split; [reflexivity|]); do 3 (split; [reflexivity|]);
    vm_compute; discriminate.
Qed.

(** Building a dictionary returns when the series of the topic, if it
    has one, is not empty. *)
Lemma local_prediction_returns m c hf t :
  (forall series, hf !! t = Some series -> series <> []) ->
  exists p, Api.local_prediction m c hf t = Ok p.
Proof.
  intros Hne. unfold Api.local_prediction.
  destruct (hf !! t) as [series|]; [|eauto].
  specialize (Hne series eq_refl).
  destruct series as [|a l]; [done|].
  destruct (last (a :: l)) eqn:Hl; [|by apply last_None in Hl].
  simpl head. eauto.
Qed.

(** C5.  With quantum available and classical not forced, the policy
    selects "quantum", without fallback, for a confidence level of at
    least 0.99, and the results built for it carry no contribution keys;
    below 0.99 it selects "hybrid", without fallback, and the results
    built for it carry the two weights of the table.  The table gives
    (0.9, 0.1) from 0.95, (0.7, 0.3) from 0.90, (0.6, 0.4) from 0.85 and
    (0.4, 0.6) below 0.85. *)
Theorem method_selection_table
    (attr : option bool) (force_classical : bool) (c : Q) :
  Api.quantum_available_seen attr = true ->
  force_classical = false ->
  (0.99 <= c ->
   Api.method_selection force_classical (Api.quantum_available_seen attr) c
     = ("quantum", false)
   /\ forall hf t,
        (forall series, hf !! t = Some series -> series <> []) ->
        exists p,
          Api.local_prediction "quantum" c hf t = Ok p
          /\ Api.method p = "quantum"
          /\ Api.quantum_contribution p = None
          /\ Api.classical_contribution p = None)
  /\ (c < 0.99 ->
      Api.method_selection force_classical (Api.quantum_available_seen attr) c
        = ("hybrid", false)
      /\ forall hf t,
           (forall series, hf !! t = Some series -> series <> []) ->
           exists p,
             Api.local_prediction "hybrid" c hf t = Ok p
             /\ Api.method p = "hybrid"
             /\ Api.quantum_contribution p = Some (Api.blend_weights c).1
             /\ Api.classical_contribution p = Some (Api.blend_weights c).2)
  /\ (0.95 <= c -> Api.blend_weights c = (0.9, 0.1))
  /\ (0.90 <= c < 0.95 -> Api.blend_weights c = (0.7, 0.3))
  /\ (0.85 <= c < 0.90 -> Api.blend_weights c = (0.6, 0.4))
  /\ (c < 0.85 -> Api.blend_weights c = (0.4, 0.6)).
Proof.
  intros -> ->. unfold Api.method_selection. simpl.
  split; [|split].
  - intros H99. apply Qle_bool_iff in H99. rewrite H99.
    split; [reflexivity|]. intros hf t Hne.
    destruct (local_prediction_returns "quantum" c hf t Hne) as (p & Hp).
    exists p. split; [exact Hp|].
    by destruct (local_prediction_fields _ _ _ _ _ Hp) as (? & ? & ? & _).
  - intros Hlt. destruct (Qle_bool 0.99 c) eqn:H99.
    { apply Qle_bool_iff in H99. lra. }
    split; [reflexivity|]. intros hf t Hne.
    destruct (local_prediction_returns "hybrid" c hf t Hne) as (p & Hp).
    exists p. split; [exact Hp|].
    by destruct (local_prediction_fields _ _ _ _ _ Hp) as (? & ? & ? & _).
  - destruct (blend_weights_cases c)
      as [[? ->]|[[? ->]|[[? ->]|[? ->]]]];
      repeat split; intros; try reflexivity; lra.
Qed.

(* ================================================================== *)
(** * Concrete runs *)

Lemma quantum_failure_error_line_raises_run :
  Loguru.has_brace "{x}" = true
  /\ (min_historical_years default_settings <= Z.of_nat (length qm_series))%Z
  /\ Logged._quantum_prediction missing_field default_predictor flaky_backend
       "{x}" qm_series 0.95 = Raise (BackendError "simulator failure")
  /\ Logged.predict_topics missing_field default_predictor default_settings
       flaky_backend braces_request braces_data 0 1 = Raise (KeyError "x").
Proof.
  split; [reflexivity|]. split; [vm_compute; discriminate|].
  split; [reflexivity|].
  apply (quantum_failure_error_line_raises missing_field default_predictor
           default_settings flaky_backend braces_request braces_data 0 1
           ["linear-algebra"] [] "{x}" qm_series
           (BackendError "simulator failure") (KeyError "x"));
    [ reflexivity
    | constructor; [vm_compute; reflexivity | constructor]
    | reflexivity | reflexivity | reflexivity | vm_compute; reflexivity
    | vm_compute; discriminate | reflexivity | reflexivity ].
Defined.

Lemma quantum_failure_recovers_as_classical_fallback_run :
  Forall brace_free (topics batch_request)
  /\ (min_historical_years default_settings <= Z.of_nat (length qm_series))%Z
  /\ Logged._quantum_prediction missing_field default_predictor flaky_backend
       "quantum-mechanics" qm_series 0.95
     = Raise (BackendError "simulator failure")
  /\ exists resp lg,
       Logged.predict_topics missing_field default_predictor default_settings
         flaky_backend batch_request sample_data 0 1 = Ok (resp, lg)
       /\ List.map topic (predictions resp)
          = ["linear-algebra"; "quantum-mechanics"]
       /\ List.map method (predictions resp)
          = ["quantum"; "classical_fallback"]
       /\ fallback_used resp = true.
Proof.
  assert (Hbf : Forall brace_free (topics batch_request))
    by (constructor; [vm_compute; reflexivity
                     |constructor; [vm_compute; reflexivity | constructor]]).
  split; [exact Hbf|]. split; [vm_compute; discriminate|].
  split; [reflexivity|].
  destruct (quantum_failure_recovers_as_classical_fallback missing_field
              default_predictor default_settings flaky_backend batch_request
              sample_data 0 1 ["linear-algebra"] [] "quantum-mechanics"
              qm_series (BackendError "simulator failure"))
    as (resp & lg & r1 & lg1 & r2 & lg2 & Hrun & Hrun1 & Hrun2 & Hcase);
    [reflexivity | exact Hbf | reflexivity | reflexivity
    | vm_compute; reflexivity | vm_compute; discriminate | reflexivity |].
  exists resp, lg. split; [exact Hrun|].
  destruct (classical_long default_predictor "quantum-mechanics" qm_series 0.95)
    as (r & Hr & _); [simpl; lia|].
  change (confidence_level batch_request) with 0.95 in Hcase.
  rewrite Hr in Hcase.
  destruct Hcase as (p & Hps & Htop & Hmeth & _ & _ & _ & Hfb & _).
  assert (H1 : List.map topic (predictions r1) = ["linear-algebra"]
               /\ List.map method (predictions r1) = ["quantum"]).
  { vm_compute in Hrun1. injection Hrun1 as <- _. split; reflexivity. }
  assert (H2 : predictions r2 = []).
  { vm_compute in Hrun2. injection Hrun2 as <- _. reflexivity. }
  destruct H1 as [H1t H1m].
  rewrite Hps, H2, !List.map_app, H1t, H1m. simpl. rewrite Htop, Hmeth.
  split; [reflexivity|]. split; [reflexivity | exact Hfb].
Defined.

Lemma ineligible_topics_are_skipped_run :
  Forall brace_free (topics two_topic_request)
  /\ eligible default_settings sample_data "organic-chemistry" = false
  /\ exists resp lg,
       Logged.predict_topics missing_field default_predictor default_settings
         steady_backend two_topic_request sample_data 0 1 = Ok (resp, lg)
       /\ length (predictions resp) = 1%nat.
Proof.
  assert (Hbf : Forall brace_free (topics two_topic_request))
    by (constructor; [vm_compute; reflexivity
                     |constructor; [vm_compute; reflexivity | constructor]]).
  split; [exact Hbf|]. split; [vm_compute; reflexivity|].
  destruct (ineligible_topics_are_skipped missing_field default_predictor
              default_settings steady_backend two_topic_request sample_data
              0 1 Hbf)
    as (resp & lg & Hrun & _ & Hone).
  exists resp, lg. split; [exact Hrun|].
  apply (Hone "quantum-mechanics" "organic-chemistry" qm_series);
    [left; reflexivity | vm_compute; reflexivity | vm_compute; discriminate
    | simpl; lia | vm_compute; reflexivity].
Defined.

(** C6 as stated fails under a threshold of 1: of the two requested topics
    "a" is present with a series that meets the threshold and "b" is
    absent, yet the response holds no result.  The classical estimator
    refuses the single observation, in the first attempt and in the
    recovery, and the topic is dropped. *)
Lemma single_observation_topic_yields_no_result :
  single_point_data !! "a" = Some [10]
  /\ (min_historical_years lenient_settings <= Z.of_nat (length [10]))%Z
  /\ single_point_data !! "b" = None
  /\ exists resp lg,
       Logged.predict_topics missing_field default_predictor lenient_settings
         steady_backend single_point_request single_point_data 0 1
         = Ok (resp, lg)
       /\ predictions resp = []
       /\ length (predictions resp) <> 1%nat
       /\ lg = [StartingPrediction;
                ErrorPredicting "a" insufficient_data;
                FallbackFailed "a" insufficient_data;
                TopicNotFound "b"].
Proof.
  split; [vm_compute; reflexivity|]. split; [vm_compute; discriminate|].
  split; [vm_compute; reflexivity|].
  eexists _, _. split; [vm_compute; reflexivity|].
  split; [reflexivity|]. split; [discriminate|reflexivity].
Qed.

Lemma insufficient_data_unreachable_run :
  (2 <= min_historical_years default_settings)%Z
  /\ Forall brace_free (topics forced_request)
  /\ exists resp lg,
       Logged.predict_topics missing_field default_predictor default_settings
         steady_backend forced_request sample_data 0 1 = Ok (resp, lg)
       /\ (forall t e, ~ In (ErrorPredicting t e) lg)
       /\ (forall t e2, ~ In (FallbackFailed t e2) lg).
Proof.
  assert (Hbf : Forall brace_free (topics forced_request))
    by (constructor; [vm_compute; reflexivity | constructor]).
  split; [vm_compute; discriminate|]. split; [exact Hbf|].
  destruct (insufficient_data_unreachable missing_field default_predictor
              default_settings steady_backend forced_request sample_data 0 1)
    as (_ & _ & resp & lg & Hrun & Hff & Hep);
    [vm_compute; discriminate | exact Hbf |].
  exists resp, lg. split; [exact Hrun|]. split; [|exact Hff].
  apply Hep. right. reflexivity.
Defined.

(** C8 as stated fails under a threshold of 1, which the settings accept:
    the single observation of "a" passes the filter of the orchestrator,
    the classical estimator is invoked on it and raises its
    insufficient-data error, in the first attempt and in the recovery. *)
Lemma insufficient_data_reached_under_threshold_one :
  min_historical_years lenient_settings = 1%Z
  /\ single_point_data !! "a" = Some [10]
  /\ _classical_prediction default_predictor "a" [10] 0.95
     = Raise insufficient_data
  /\ Logged.predict_topics missing_field default_predictor lenient_settings
       steady_backend single_point_only_request single_point_data 0 1
     = Ok ({| predictions := []; execution_time_ms := 1000;
              fallback_used := false |},
           [StartingPrediction;
            ErrorPredicting "a" insufficient_data;
            FallbackFailed "a" insufficient_data]).
Proof.
  split; [reflexivity|]. split; [vm_compute; reflexivity|].
  split; [reflexivity|]. vm_compute. reflexivity.
Qed.



Lemma hybrid_fields_of_local_results_run :
  exists r p wq wc uq,
    Api.predict_topics (Some true) Api.Falsy hybrid_request = Api.Http200 r
    /\ In p (Api.predictions r)
    /\ Api.method p = "hybrid"
    /\ Api.quantum_contribution p = Some wq
    /\ Api.classical_contribution p = Some wc
    /\ Api.uncertainty_quantification p = Some uq
    /\ wq + wc == 1
    /\ Qabs (Api.blended_uncertainty uq
             - (wq * Api.quantum_uncertainty uq
                + wc * Api.classical_uncertainty uq)) <= 0.01.
Proof.
  eexists _, _. 
  assert (Hrun : Api.predict_topics (Some true) Api.Falsy hybrid_request
                 = Api.Http200
                     {| Api.predictions :=
                          [{| Api.topic := "quantum-mechanics";
                              Api.importance := Py.round (28 / 100) 4;
                              Api.confidence_interval :=
                                (Py.round (Py.max 0 (28 - 5) / 100) 4,
                                 Py.round (Py.min 100 (28 + 5) / 100) 4);
                              Api.trend := "increasing";
                              Api.method := "hybrid";
                              Api.quantum_contribution := Some 0.9;
                              Api.classical_contribution := Some 0.1;
                              Api.uncertainty_quantification :=
                                Some {| Api.quantum_uncertainty := 0.05;
                                        Api.classical_uncertainty := 0.03;
                                        Api.blended_uncertainty := 0.04 |} |}];
                        Api.fallback_used := false;
                        Api.method_used := "hybrid" |})
    by (vm_compute; reflexivity).
  destruct (hybrid_fields_of_local_results (Some true) Api.Falsy hybrid_request
              _ _ Hrun eq_refl (or_introl eq_refl) eq_refl)
    as (wq & wc & uq & Hq & Hc & Huq & Hsum & _ & _ & _ & Hbound).
  exists wq, wc, uq. split; [exact Hrun|]. split; [left; reflexivity|].
  split; [reflexivity|]. split; [exact Hq|]. split; [exact Hc|].
  split; [exact Huq|]. split; [exact Hsum | exact Hbound].
Defined.

Lemma method_selection_table_run :
  Api.quantum_available_seen (Some true) = true
  /\ Api.method_selection false (Api.quantum_available_seen (Some true)) 0.95
     = ("hybrid", false)
  /\ Api.blend_weights 0.95 = (0.9, 0.1)
  /\ exists p,
       Api.local_prediction "hybrid" 0.95 Api.mock_historical_data
         "quantum-mechanics" = Ok p
       /\ Api.method p = "hybrid"
       /\ Api.quantum_contribution p = Some 0.9
       /\ Api.classical_contribution p = Some 0.1.
Proof.
  split; [reflexivity|].
  destruct (method_selection_table (Some true) false 0.95 eq_refl eq_refl)
    as (_ & Hhyb & H95 & _).
  destruct (Hhyb eq_refl) as [Hsel Hres].
  assert (Hw : Api.blend_weights 0.95 = (0.9, 0.1))
    by (apply H95; vm_compute; discriminate).
  split; [exact Hsel|]. split; [exact Hw|].
  destruct (Hres Api.mock_historical_data "quantum-mechanics")
    as (p & Hp & Hm & Hq & Hc).
  { intros series H. vm_compute in H. injection H as <-. discriminate. }
  exists p. rewrite Hw in Hq, Hc. by repeat split.
Defined.

(* ================================================================== *)
(** * Further properties of the estimators and the orchestrator *)

(** ** Rounding *)

Lemma round_half_even_comp (x y : Q) :
  x == y -> Py.round_half_even x = Py.round_half_even y.
Proof.
  intros H. unfold Py.round_half_even.
  rewrite (Qfloor_comp _ _ H).
  assert (Hc : Qcompare (x - inject_Z (Qfloor y)) (1 # 2)
               = Qcompare (y - inject_Z (Qfloor y)) (1 # 2))
    by (apply Qcompare_comp; [by rewrite H | reflexivity]).
  by rewrite Hc.
Qed.

Lemma round_half_even_Z (z : Z) : Py.round_half_even (inject_Z z) = z.
Proof.
  unfold Py.round_half_even. rewrite Qfloor_Z.
  assert (H : Qcompare (inject_Z z - inject_Z z) (1 # 2) = Lt)
    by (apply (proj1 (Qlt_alt _ _)); lra).
  by rewrite H.
Qed.

Lemma round_half_even_mono (x y : Q) :
  x <= y -> (Py.round_half_even x <= Py.round_half_even y)%Z.
Proof.
  intros Hxy. unfold Py.round_half_even.
  pose proof (Qfloor_resp_le _ _ Hxy) as Hf.
  pose proof (Qfloor_le x) as Hx1. pose proof (Qlt_floor x) as Hx2.
  pose proof (Qfloor_le y) as Hy1. pose proof (Qlt_floor y) as Hy2.
  rewrite inject_Z_plus in Hx2, Hy2.
  destruct (Z.eq_dec (Qfloor x) (Qfloor y)) as [He|Hne].
  - rewrite He in *. set (f := Qfloor y) in *.
    destruct (Qcompare_spec (x - inject_Z f) (1 # 2));
      destruct (Qcompare_spec (y - inject_Z f) (1 # 2));
      destruct (Z.even f); try lia; exfalso; lra.
  - assert (Qfloor x + 1 <= Qfloor y)%Z by lia.
    destruct (Qcompare (x - inject_Z (Qfloor x)) (1 # 2));
      destruct (Qcompare (y - inject_Z (Qfloor y)) (1 # 2));
      destruct (Z.even (Qfloor x)); destruct (Z.even (Qfloor y)); lia.
Qed.

Lemma scale_pos (n : nat) : 0 < inject_Z (10 ^ Z.of_nat n).
Proof.
  change 0 with (inject_Z 0). rewrite <- Zlt_Qlt. apply Z.pow_pos_nonneg; lia.
Qed.

Lemma round_mono (x y : Q) (n : nat) : x <= y -> Py.round x n <= Py.round y n.
Proof.
  intros H. unfold Py.round. pose proof (scale_pos n) as Hs.
  apply Qmult_le_compat_r; [|apply Qlt_le_weak, Qinv_lt_0_compat, Hs].
  rewrite <- Zle_Qle. apply round_half_even_mono.
  apply Qmult_le_compat_r; [exact H | lra].
Qed.

Lemma round_Z (z : Z) (n : nat) : Py.round (inject_Z z) n == inject_Z z.
Proof.
  unfold Py.round. pose proof (scale_pos n) as Hs.
  rewrite <- inject_Z_mult, round_half_even_Z, inject_Z_mult.
  field. lra.
Qed.

Lemma round_unit_interval (x : Q) (n : nat) :
  0 <= x <= 1 -> 0 <= Py.round x n <= 1.
Proof.
  intros [H0 H1]. split.
  - rewrite <- (round_Z 0 n). by apply round_mono.
  - rewrite <- (round_Z 1 n). by apply round_mono.
Qed.

Lemma clamp_unit (x : Q) : 0 <= Py.min 1 (Py.max 0 x) <= 1.
Proof.
  unfold Py.min, Py.max.
  destruct (Qlt_le_dec 0 x); destruct (Qlt_le_dec _ 1); lra.
Qed.


Lemma max_nf_lower a v : a <= Py.max_nf a v.
Proof. destruct v; simpl; [apply Py_max_lower | lra]. Qed.

Lemma min_nf_upper a v : Py.min_nf a v <= a.
Proof. destruct v; simpl; [apply Py_min_upper | lra]. Qed.

Lemma std_nonneg l ddof s : NumPy.std l ddof = Some s -> 0 <= s.
Proof.
  unfold NumPy.std. destruct (ddof <? length l)%nat; [|discriminate].
  intros [= <-]. apply sqrt_nonneg.
Qed.

Lemma div100_mono (x y : Q) : x <= y -> x / 100 <= y / 100.
Proof.
  intros H. unfold Qdiv. apply Qmult_le_compat_r; [exact H|].
  apply Qlt_le_weak, Qinv_lt_0_compat. reflexivity.
Qed.

Lemma div100_0 : 0 / 100 == 0.
Proof. reflexivity. Qed.

Lemma div100_1 : 100 / 100 == 1.
Proof. reflexivity. Qed.

(** ** The classical estimator *)

(** X1.  On every series of at least two observations the classical
    estimator returns, with an importance in [0, 1], a lower bound of at
    least 0 and an upper bound of at most 1. *)
Theorem classical_clamped_sides
    (self : VQEPredictor) (t : string) (data : list Q) (c : Q) :
  (2 <= length data)%nat ->
  exists r,
    _classical_prediction self t data c = Ok r
    /\ 0 <= importance r <= 1
    /\ 0 <= (confidence_interval r).1
    /\ (confidence_interval r).2 <= 1.
Proof.
  intros H. unfold _classical_prediction.
  destruct (Nat.ltb_spec (length data) 2) as [|_]; [lia|].
  destruct (NumPy.polyfit1 _ _) as [slope intercept].
  eexists. split; [reflexivity|]. cbn [importance confidence_interval fst snd].
  split; [apply round_unit_interval, clamp_unit|]. split.
  - rewrite <- (round_Z 0 4) at 1. apply round_mono, max_nf_lower.
  - rewrite <- (round_Z 1 4) at 2. apply round_mono, min_nf_upper.
Qed.

(** X2.  When the extrapolated value stays on the 0-100 scale, the
    result of the classical estimator is well formed:
    0 <= lower <= importance <= upper <= 1. *)
Theorem classical_interval_ordered_on_scale
    (self : VQEPredictor) (t : string) (data : list Q) (c : Q) :
  (2 <= length data)%nat ->
  0 <= classical_forecast data <= 100 ->
  exists r,
    _classical_prediction self t data c = Ok r
    /\ 0 <= (confidence_interval r).1
    /\ (confidence_interval r).1 <= importance r
    /\ importance r <= (confidence_interval r).2
    /\ (confidence_interval r).2 <= 1.
Proof.
  intros H. unfold classical_forecast, _classical_prediction.
  destruct (Nat.ltb_spec (length data) 2) as [|_]; [lia|].
  destruct (NumPy.polyfit1 _ _) as [slope intercept].
  set (p := slope * Py.len data + intercept). clearbody p. intros [Hp0 Hp1].
  eexists. split; [reflexivity|]. cbn [importance confidence_interval fst snd].
  pose proof (div100_mono _ _ Hp0) as Hq0. rewrite div100_0 in Hq0.
  pose proof (div100_mono _ _ Hp1) as Hq1. rewrite div100_1 in Hq1.
  assert (Himp : Py.min 1 (Py.max 0 (p / 100)) == p / 100).
  { unfold Py.min, Py.max.
    destruct (Qlt_le_dec 0 (p / 100)); destruct (Qlt_le_dec _ 1); lra. }
  split; [rewrite <- (round_Z 0 4) at 1; apply round_mono, max_nf_lower|].
  split; [|split;
           [|rewrite <- (round_Z 1 4) at 2; apply round_mono, min_nf_upper]].
  - apply round_mono. rewrite Himp.
    destruct (NumPy.std _ 2) as [s|] eqn:Hs; simpl; [|lra].
    apply std_nonneg in Hs.
    assert (Hm : (p - 1.96 * s) / 100 <= p / 100) by (apply div100_mono; lra).
    unfold Py.max. destruct (Qlt_le_dec 0 _); lra.
  - apply round_mono. rewrite Himp.
    destruct (NumPy.std _ 2) as [s|] eqn:Hs; simpl; [|lra].
    apply std_nonneg in Hs.
    assert (Hm : p / 100 <= (p + 1.96 * s) / 100) by (apply div100_mono; lra).
    unfold Py.min. destruct (Qlt_le_dec _ 1); lra.
Qed.

(** X3.  A series of exactly two observations [a], [b]: the fitted line
    passes through both, the extrapolated value is [2b - a], a rise is
    labelled "increasing" and a fall "decreasing", and, no residual degree
    of freedom being left, the interval is the whole of (0, 1). *)
Theorem classical_two_observations
    (self : VQEPredictor) (t : string) (a b c : Q) :
  exists r,
    _classical_prediction self t [a; b] c = Ok r
    /\ classical_forecast [a; b] == 2 * b - a
    /\ importance r == Py.round (Py.min 1 (Py.max 0 ((2 * b - a) / 100))) 4
    /\ (confidence_interval r).1 == 0
    /\ (confidence_interval r).2 == 1
    /\ (a < b -> trend r = "increasing")
    /\ (b < a -> trend r = "decreasing").
Proof.
  assert (Hfit : NumPy.polyfit1 (NumPy.arange 2) [a; b] =
                 NumPy.polyfit1 (NumPy.arange 2) [a; b]) by reflexivity.
  unfold classical_forecast, _classical_prediction.
  change (length [a; b]) with 2%nat. cbn [Nat.ltb Nat.leb].
  destruct (NumPy.polyfit1 (NumPy.arange 2) [a; b]) as [slope intercept] eqn:Hp.
  unfold NumPy.polyfit1 in Hp. injection Hp as Hslope Hint.
  assert (Hs : slope == b - a).
  { rewrite <- Hslope. vm_compute NumPy.arange. unfold Py.len, NumPy.sum.
    simpl. field. }
  assert (Hi : intercept == a).
  { rewrite <- Hint. vm_compute NumPy.arange.
    unfold Py.len, NumPy.sum. simpl. field. }
  assert (Hf : slope * Py.len [a; b] + intercept == 2 * b - a).
  { rewrite Hs, Hi. unfold Py.len. simpl. ring. }
  eexists. split; [reflexivity|]. cbn [importance confidence_interval trend fst snd].
  split; [exact Hf|]. split.
  { unfold Py.round. rewrite (round_half_even_comp
      (Py.min 1 (Py.max 0 ((slope * Py.len [a; b] + intercept) / 100))
       * inject_Z (10 ^ Z.of_nat 4))
      (Py.min 1 (Py.max 0 ((2 * b - a) / 100)) * inject_Z (10 ^ Z.of_nat 4)));
      [reflexivity|].
    apply Qmult_comp; [|reflexivity].
    assert (Hd : (slope * Py.len [a; b] + intercept) / 100 == (2 * b - a) / 100)
      by (rewrite Hf; reflexivity).
    unfold Py.min, Py.max.
    destruct (Qlt_le_dec 0 ((slope * _ + _) / 100));
      destruct (Qlt_le_dec 0 ((2 * b - a) / 100));
      repeat (match goal with |- context [Qlt_le_dec ?x ?y] =>
                destruct (Qlt_le_dec x y) end); lra. }
  split; [vm_compute; reflexivity|]. split; [vm_compute; reflexivity|].
  repeat split; intros Hab;
    destruct (Qlt_le_dec 0 slope); try destruct (Qlt_le_dec slope 0);
    try reflexivity; exfalso; lra.
Qed.

(** ** The quantum estimator *)






(** ** The orchestrator *)


Section BatchResults.

Variable self : VQEPredictor.
Variable settings : Settings.
Variable vqe : vqe_backend.
Variable request : PredictionRequest.
Variable hd : gmap string (list Q).

Local Abbreviation body := (loop_body self settings vqe request hd).
Local Abbreviation loop := (for_topics self settings vqe request hd).





End BatchResults.






(** ** The endpoint *)

Lemma mock_series_nonempty (t : string) (series : list Q) :
  Api.mock_historical_data !! t = Some series -> length series = 5%nat.
Proof.
  intros H. unfold Api.mock_historical_data in H.
  apply elem_of_list_to_map_2 in H.
  repeat (apply elem_of_cons in H as [H|H]; [by injection H as -> ->|]).
  by apply elem_of_nil in H.
Qed.

Lemma mock_filter_lookup (ts : list string) (t : string) :
  filter (fun kv : string * list Q => kv.1 ∈ ts) Api.mock_historical_data !! t
  = if decide (t ∈ ts) then Api.mock_historical_data !! t else None.
Proof.
  destruct (decide (t ∈ ts)) as [Hin|Hout].
  - destruct (Api.mock_historical_data !! t) as [series|] eqn:Hm.
    + by apply map_lookup_filter_Some.
    + apply map_lookup_filter_None. left. done.
  - apply map_lookup_filter_None. right. intros x _. done.
Qed.

(** On the frequencies the endpoint selects, building a dictionary never
    fails, and it is a dictionary for the topic asked for. *)
Lemma local_prediction_total m c (ts : list string) t :
  exists p,
    Api.local_prediction m c
      (filter (fun kv : string * list Q => kv.1 ∈ ts) Api.mock_historical_data)
      t = Ok p
    /\ Api.topic p = t /\ Api.method p = m.
Proof.
  unfold Api.local_prediction. rewrite mock_filter_lookup.
  destruct (decide (t ∈ ts)); [|eexists; split; [reflexivity|done]].
  destruct (Api.mock_historical_data !! t) as [series|] eqn:Hm;
    [|eexists; split; [reflexivity|done]].
  apply mock_series_nonempty in Hm.
  destruct series as [|a [|b [|x [|y [|z [|]]]]]]; try discriminate.
  eexists. split; [reflexivity|done].
Qed.

Lemma local_predictions_total m c (ts : list string) us :
  exists ps,
    Api.local_predictions m c
      (filter (fun kv : string * list Q => kv.1 ∈ ts) Api.mock_historical_data)
      us = Ok ps
    /\ List.map Api.topic ps = us
    /\ Forall (fun p => Api.method p = m) ps.
Proof.
  induction us as [|u us (ps & Hps & Htop & Hm)]; simpl.
  - exists []. repeat split. constructor.
  - destruct (local_prediction_total m c ts u) as (p & Hp & Ht & Hmp).
    rewrite Hp, bind_Ok, Hps, bind_Ok. exists (p :: ps).
    split; [reflexivity|]. split; [simpl; congruence|]. by constructor.
Qed.

(** X10.  The handler answers an empty topic list with status 500: the
    422 it raises for the empty list is caught by its own catch-all
    handler. *)
Theorem endpoint_empty_topics_is_500
    (attr : option bool) (service : Api.ServiceOutcome)
    (request : Api.PredictionRequest) :
  Api.topics request = [] ->
  exists detail, Api.predict_topics attr service request = Api.Http500 detail.
Proof.
  intros H. unfold Api.predict_topics. rewrite H. simpl. eauto.
Qed.

(** X11.  For a non-empty request for which the service call hands over
    no predictions, the handler answers 200 with exactly one dictionary
    per requested topic, in request order, all carrying the method the
    response reports; a topic without mock history is not skipped but
    answered with importance 0, interval (0, 0) and trend "unknown". *)
Theorem endpoint_answers_every_topic
    (attr : option bool) (service : Api.ServiceOutcome)
    (request : Api.PredictionRequest) :
  Api.topics request <> [] ->
  service_predictions service = [] ->
  exists r,
    Api.predict_topics attr service request = Api.Http200 r
    /\ List.map Api.topic (Api.predictions r) = Api.topics request
    /\ Forall (fun p => Api.method p = Api.method_used r) (Api.predictions r)
    /\ (forall p,
          In p (Api.predictions r) ->
          Api.mock_historical_data !! Api.topic p = None ->
          Api.importance p = 0.0
          /\ Api.confidence_interval p = (0.0, 0.0)
          /\ Api.trend p = "unknown").
Proof.
  intros Hne Hsp. unfold Api.predict_topics.
  rewrite bool_decide_eq_false_2 by done.
  destruct (Api.method_selection _ _ _) as [m fb].
  assert (Hgen : forall m' fb',
    exists r,
      (predictions ←
         Api.local_predictions m' (Api.confidence_level request)
           (filter (fun kv : string * list Q => kv.1 ∈ Api.topics request)
              Api.mock_historical_data) (Api.topics request);
       Ok {| Api.predictions := predictions; Api.fallback_used := fb';
             Api.method_used := m' |}) = Ok r
      /\ List.map Api.topic (Api.predictions r) = Api.topics request
      /\ Forall (fun p => Api.method p = Api.method_used r) (Api.predictions r)
      /\ (forall p,
            In p (Api.predictions r) ->
            Api.mock_historical_data !! Api.topic p = None ->
            Api.importance p = 0.0
            /\ Api.confidence_interval p = (0.0, 0.0)
            /\ Api.trend p = "unknown")).
  { intros m' fb'.
    destruct (local_predictions_total m' (Api.confidence_level request)
                (Api.topics request) (Api.topics request))
      as (ps & Hps & Htop & Hm).
    rewrite Hps, bind_Ok. eexists. split; [reflexivity|]. simpl.
    split; [done|]. split; [done|].
    intros p Hin Hnone.
    destruct (local_predictions_In _ _ _ _ _ p Hps Hin) as (t & _ & Hp).
    destruct (local_prediction_total m' (Api.confidence_level request)
                (Api.topics request) t) as (p' & Hp' & Ht & _).
    rewrite Hp in Hp'. injection Hp' as <-. rewrite Ht in Hnone.
    unfold Api.local_prediction in Hp. rewrite mock_filter_lookup, Hnone in Hp.
    destruct (decide (t ∈ Api.topics request)); by injection Hp as <-. }
  destruct service as [| e | | sr]; simpl in Hsp; try rewrite Hsp;
    match goal with
    | |- context [Api.local_predictions ?m' _ _ _] =>
        match goal with
        | |- context [{| Api.predictions := _; Api.fallback_used := ?fb';
                         Api.method_used := _ |}] =>
            destruct (Hgen m' fb') as (r & Hr & Hrest)
        end
    end; simpl in Hr |- *; rewrite Hr; eauto.
Qed.

(** X12.  When the service call raises, the handler still answers 200
    for a non-empty request: it reports the method "classical" with
    [fallback_used] true, whatever the policy had selected, and every
    dictionary it builds carries the method "classical" and none of the
    hybrid or quantum keys. *)
Theorem endpoint_service_failure_is_classical_fallback
    (attr : option bool) (e : exn) (request : Api.PredictionRequest) :
  Api.topics request <> [] ->
  exists r,
    Api.predict_topics attr (Api.Raises e) request = Api.Http200 r
    /\ Api.method_used r = "classical"
    /\ Api.fallback_used r = true
    /\ List.map Api.topic (Api.predictions r) = Api.topics request
    /\ Forall (fun p =>
                 Api.method p = "classical"
                 /\ Api.quantum_contribution p = None
                 /\ Api.classical_contribution p = None
                 /\ Api.uncertainty_quantification p = None)
         (Api.predictions r).
Proof.
  intros Hne. unfold Api.predict_topics.
  rewrite bool_decide_eq_false_2 by done.
  destruct (Api.method_selection _ _ _) as [m fb].
  destruct (local_predictions_total "classical" (Api.confidence_level request)
              (Api.topics request) (Api.topics request))
    as (ps & Hps & Htop & Hm).
  rewrite Hps, bind_Ok. eexists. split; [reflexivity|]. simpl.
  do 3 (split; [done|]).
  apply List.Forall_forall. intros p Hin.
  destruct (local_predictions_In _ _ _ _ _ p Hps Hin) as (t & _ & Hp).
  clear Hps Hin Hm Htop. unfold Api.local_prediction in Hp.
  destruct (_ !! t) as [series|].
  - destruct (last series); [|discriminate].
    destruct (head series); [|discriminate]. by injection Hp as <-.
  - by injection Hp as <-.
Qed.

(** X13.  The weight table is a monotone step function of the confidence
    level: a higher confidence level never lowers the quantum weight, both
    weights lie strictly between 0 and 1, and they sum to 1. *)
Theorem blend_weights_monotone (c c' : Q) :
  c <= c' ->
  (Api.blend_weights c).1 <= (Api.blend_weights c').1
  /\ (Api.blend_weights c').2 <= (Api.blend_weights c).2
  /\ 0 < (Api.blend_weights c).1 < 1
  /\ 0 < (Api.blend_weights c).2 < 1
  /\ (Api.blend_weights c).1 + (Api.blend_weights c).2 == 1.
Proof.
  intros Hle.
  destruct (blend_weights_cases c) as [[? ->]|[[? ->]|[[? ->]|[? ->]]]];
    destruct (blend_weights_cases c') as [[? ->]|[[? ->]|[[? ->]|[? ->]]]];
    simpl; repeat split; try (vm_compute; congruence); exfalso; lra.
Qed.

(** X14.  For a topic whose latest frequency lies on the 0-100 scale the
    dictionary the handler builds is well formed:
    0 <= lower <= importance <= upper <= 1, with the bounds five points
    either side of the latest frequency, cut at 0 and 100. *)
Theorem local_prediction_well_formed
    (m : string) (c : Q) (hf : gmap string (list Q)) (t : string)
    (series : list Q) (latest : Q) :
  hf !! t = Some series ->
  last series = Some latest ->
  0 <= latest <= 100 ->
  exists p,
    Api.local_prediction m c hf t = Ok p
    /\ Api.importance p = Py.round (latest / 100) 4
    /\ 0 <= (Api.confidence_interval p).1
    /\ (Api.confidence_interval p).1 <= Api.importance p
    /\ Api.importance p <= (Api.confidence_interval p).2
    /\ (Api.confidence_interval p).2 <= 1.
Proof.
  intros Hhf Hlast [H0 H1]. unfold Api.local_prediction. rewrite Hhf, Hlast.
  destruct series as [|a series]; [discriminate|]. simpl head.
  eexists. split; [reflexivity|].
  unfold Api.add_method_fields. cbn [Api.importance Api.confidence_interval fst snd].
  split; [reflexivity|].
  assert (Hlo : 0 <= Py.max 0 (latest - 5) <= latest)
    by (unfold Py.max; destruct (Qlt_le_dec 0 (latest - 5)); lra).
  assert (Hhi : latest <= Py.min 100 (latest + 5) <= 100)
    by (unfold Py.min; destruct (Qlt_le_dec (latest + 5) 100); lra).
  destruct Hlo as [Hlo0 Hlo1]. destruct Hhi as [Hhi0 Hhi1].
  split; [|split; [|split]].
  - apply Qle_trans with (Py.round (0 / 100) 4);
      [|apply round_mono, div100_mono, Hlo0].
    apply Qle_trans with (Py.round (inject_Z 0) 4);
      [rewrite round_Z; apply Qle_refl | apply round_mono; vm_compute; discriminate].
  - apply round_mono, div100_mono, Hlo1.
  - apply round_mono, div100_mono, Hhi0.
  - apply Qle_trans with (Py.round (100 / 100) 4);
      [apply round_mono, div100_mono, Hhi1|].
    apply Qle_trans with (Py.round (inject_Z 1) 4);
      [apply round_mono; vm_compute; discriminate | rewrite round_Z; apply Qle_refl].
Qed.

(* ================================================================== *)
(** * The data loader and the command line *)

Lemma remove_dups_length_le {A} `{EqDecision A} (l : list A) :
  (length (remove_dups l) <= length l)%nat.
Proof.
  induction l as [|x l IH]; simpl; [lia|].
  destruct (decide_rel elem_of x l); simpl; lia.
Qed.

Lemma remove_dups_length_NoDup {A} `{EqDecision A} (l : list A) :
  length (remove_dups l) = length l <-> NoDup l.
Proof.
  induction l as [|x l IH]; simpl.
  - split; [constructor | reflexivity].
  - destruct (decide_rel elem_of x l) as [Hin|Hout].
    + split.
      * intros H'. pose proof (remove_dups_length_le l). lia.
      * intros Hnd. apply NoDup_cons in Hnd as [Hx _]. done.
    + simpl. rewrite NoDup_cons. split.
      * intros [= H']. split; [done | by apply IH].
      * intros [_ Hnd]. f_equal. by apply IH.
Qed.

Lemma record_errors_nil topic r :
  DataLoader.record_errors topic r = [] <-> valid_record r.
Proof.
  destruct r as [[year freq] total]. unfold DataLoader.record_errors, valid_record.
  destruct (Z.ltb_spec freq 0); destruct (Z.leb_spec total 0);
    destruct (Z.ltb_spec total freq); simpl; split;
    try discriminate; try reflexivity; lia.
Qed.

Lemma flat_map_nil {A B} (f : A -> list B) (l : list A) :
  flat_map f l = [] <-> Forall (fun x => f x = []) l.
Proof.
  induction l as [|x l IH]; simpl.
  - split; [constructor | reflexivity].
  - split.
    + intros H. apply app_eq_nil in H as [Hx Hl]. constructor; [done | by apply IH].
    + intros H. apply Forall_cons_1 in H as [-> Hl]. by apply IH.
Qed.

Lemma topic_errors_nil min_years topic records :
  DataLoader.topic_errors min_years topic records = []
  <-> valid_item min_years (topic, records).
Proof.
  unfold DataLoader.topic_errors, valid_item. simpl.
  split.
  - intros H. apply app_eq_nil in H as [H1 H]. apply app_eq_nil in H as [H2 H3].
    destruct (Z.ltb_spec (Z.of_nat (length records)) min_years);
      [discriminate|].
    destruct (bool_decide_reflect
                (length (remove_dups (List.map DataLoader.year_of records))
                 = length (List.map DataLoader.year_of records)))
      as [Hd|]; [|discriminate].
    split; [lia|]. split; [by apply remove_dups_length_NoDup|].
    apply flat_map_nil in H3. eapply Forall_impl; [exact H3|].
    intros r. apply record_errors_nil.
  - intros (Hlen & Hnd & Hrec).
    destruct (Z.ltb_spec (Z.of_nat (length records)) min_years); [lia|].
    rewrite bool_decide_eq_true_2 by (by apply remove_dups_length_NoDup).
    simpl. apply flat_map_nil. eapply Forall_impl; [exact Hrec|].
    intros r. apply record_errors_nil.
Qed.

Lemma validate_data_nil_iff (data : DataLoader.dataset) (min_years : Z) :
  DataLoader.validate_data data min_years = []
  <-> data <> [] /\ Forall (valid_item min_years) data.
Proof.
  unfold DataLoader.validate_data. destruct data as [|item data].
  - split; [discriminate | intros [H _]; done].
  - rewrite flat_map_nil. split.
    + intros H. split; [discriminate|].
      eapply Forall_impl; [exact H|].
      intros [topic records]. apply topic_errors_nil.
    + intros [_ H]. eapply Forall_impl; [exact H|].
      intros [topic records]. apply topic_errors_nil.
Qed.

(** X15.  [validate_data] reports no error exactly when the data holds
    at least one topic and every topic has at least [min_years] records,
    no year twice, and in every record a total above zero and a frequency
    between zero and the total. *)
Theorem validate_data_accepts_iff
    (data : DataLoader.dataset) (min_years : Z) :
  DataLoader.validate_data data min_years = []
  <-> data <> []
      /\ Forall (fun item : string * list DataLoader.record =>
                   (min_years <= Z.of_nat (length item.2))%Z
                   /\ NoDup (List.map DataLoader.year_of item.2)
                   /\ Forall (fun r : DataLoader.record =>
                                (0 <= r.1.2 <= r.2)%Z /\ (0 < r.2)%Z) item.2)
           data.
Proof.
  rewrite validate_data_nil_iff. apply and_iff_compat_l.
  apply Forall_iff. intros [topic records]. unfold valid_item. simpl.
  do 2 apply and_iff_compat_l. apply Forall_iff. by intros [[y f] tq].
Qed.

Lemma lookup_In data t records :
  DataLoader.lookup data t = Some records -> In (t, records) data.
Proof.
  induction data as [|[k v] data IH]; simpl; [discriminate|].
  destruct (String.eqb_spec k t) as [->|_].
  - intros [= ->]. by left.
  - intros H. right. by apply IH.
Qed.

Lemma percentage_range r :
  valid_record r -> 0 <= DataLoader.percentage r <= 100.
Proof.
  destruct r as [[year freq] total]. unfold valid_record, DataLoader.percentage.
  intros [[Hf Hft] Ht]. destruct (Z.ltb_spec 0 total); [|lia].
  assert (Ht' : 0 < inject_Z total)
    by (change 0 with (inject_Z 0); by rewrite <- Zlt_Qlt).
  assert (H0 : 0 <= inject_Z freq / inject_Z total).
  { apply Qle_shift_div_l; [done|]. rewrite Qmult_0_l.
    change 0 with (inject_Z 0). by rewrite <- Zle_Qle. }
  assert (H1 : inject_Z freq / inject_Z total <= 1).
  { apply Qle_shift_div_r; [done|]. rewrite Qmult_1_l. by rewrite <- Zle_Qle. }
  split; lra.
Qed.

Lemma frequencies_of_validated
    (data : DataLoader.dataset) (min_years : Z) (t : string) :
  DataLoader.validate_data data min_years = [] ->
  match DataLoader.lookup data t with
  | Some records =>
      DataLoader.get_topic_frequencies data t
        = List.map DataLoader.percentage records
      /\ (min_years <= Z.of_nat (length records))%Z
      /\ Forall valid_record records
  | None => DataLoader.get_topic_frequencies data t = []
  end.
Proof.
  intros Hv. apply validate_data_nil_iff in Hv as [_ Hall].
  unfold DataLoader.get_topic_frequencies.
  destruct (DataLoader.lookup data t) as [records|] eqn:Hl; [|reflexivity].
  apply lookup_In in Hl. rewrite List.Forall_forall in Hall.
  destruct (Hall _ Hl) as (Hlen & _ & Hrec). done.
Qed.

(** X16.  Frequencies extracted from validated data: a topic of the data
    yields one percentage per record, in the order of the records, so at
    least [min_years] of them, each between 0 and 100; a topic that is not
    in the data yields the empty list. *)
Theorem validated_frequencies_in_range
    (data : DataLoader.dataset) (min_years : Z) (t : string) :
  DataLoader.validate_data data min_years = [] ->
  match DataLoader.lookup data t with
  | Some records =>
      DataLoader.get_topic_frequencies data t
        = List.map DataLoader.percentage records
      /\ (min_years <= Z.of_nat (length (DataLoader.get_topic_frequencies data t)))%Z
      /\ Forall (fun x => 0 <= x <= 100)
           (DataLoader.get_topic_frequencies data t)
  | None => DataLoader.get_topic_frequencies data t = []
  end.
Proof.
  intros Hv. pose proof (frequencies_of_validated data min_years t Hv) as Hf.
  destruct (DataLoader.lookup data t) as [records|]; [|exact Hf].
  destruct Hf as (Heq & Hlen & Hrec). rewrite Heq.
  split; [reflexivity|]. split; [by rewrite length_map|].
  apply Forall_map. eapply Forall_impl; [exact Hrec|].
  intros r. apply percentage_range.
Qed.

Lemma max_of_spec (years : list Z) :
  years <> [] ->
  exists m,
    DataLoader.max_of years = Ok m /\ In m years /\ Forall (fun y => (y <= m)%Z) years.
Proof.
  destruct years as [|y ys]; [done|]. intros _. simpl.
  eexists. split; [reflexivity|].
  revert y. induction ys as [|z ys IH]; intros y; simpl.
  - split; [by left | repeat constructor; lia].
  - destruct (IH (Z.max y z)) as [Hin Hall].
    apply Forall_cons_1 in Hall as [Hm Hall]. split.
    + destruct Hin as [Heq|Hin]; [|by right; right].
      rewrite <- Heq.
      destruct (Z.max_spec y z) as [[_ ->]|[_ ->]];
        [right; left | left]; reflexivity.
    + repeat constructor; [lia | lia | done].
Qed.

(** X17.  With [min_years] of at least 1, [get_available_topics] never
    raises: it lists, in the order of the data, exactly the topics with at
    least [min_years] records, each with its number of records and, as
    latest year, the greatest year among its records. *)
Theorem available_topics_listing
    (str_lower : string -> string) (data : DataLoader.dataset) (min_years : Z) :
  (1 <= min_years)%Z ->
  exists infos,
    DataLoader.get_available_topics str_lower data min_years = Ok infos
    /\ List.map DataLoader.name infos
       = List.map fst
           (List.filter (fun item : string * list DataLoader.record =>
                           (min_years <=? Z.of_nat (length item.2))%Z) data)
    /\ Forall (fun i =>
                 exists records,
                   In (DataLoader.name i, records) data
                   /\ DataLoader.years_available i = length records
                   /\ (min_years <= Z.of_nat (length records))%Z
                   /\ In (DataLoader.latest_year i)
                        (List.map DataLoader.year_of records)
                   /\ Forall (fun r => (DataLoader.year_of r
                                         <= DataLoader.latest_year i)%Z) records)
         infos.
Proof.
  intros Hmin. induction data as [|[topic records] data (infos & Hi & Hn & Hall)];
    simpl.
  - exists []. repeat split. constructor.
  - destruct (Z.leb_spec min_years (Z.of_nat (length records))) as [Hlen|Hlen].
    + destruct (max_of_spec (List.map DataLoader.year_of records))
        as (m & Hm & Hin & Hmax).
      { destruct records; [simpl in Hlen; lia | discriminate]. }
      rewrite Hm, bind_Ok, Hi, bind_Ok. eexists. split; [reflexivity|].
      simpl. split; [by rewrite Hn|]. constructor.
      * exists records. simpl. split; [by left|]. split; [done|].
        split; [done|]. split; [done|].
        exact (proj1 (Forall_map DataLoader.year_of
                        (fun y => (y <= m)%Z) records) Hmax).
      * eapply Forall_impl; [exact Hall|].
        intros i (rs & ? & ?). exists rs. split; [by right | done].
    + exists infos. split; [done|]. split; [done|].
      eapply Forall_impl; [exact Hall|].
      intros i (rs & ? & ?). exists rs. split; [by right | done].
Qed.

(** X18.  Data that [validate_data] accepts for a [min_years] of at
    least 1 is listed in full by [get_available_topics]: one entry per
    topic of the data, in order. *)
Theorem validated_topics_all_available
    (str_lower : string -> string) (data : DataLoader.dataset) (min_years : Z) :
  (1 <= min_years)%Z ->
  DataLoader.validate_data data min_years = [] ->
  exists infos,
    DataLoader.get_available_topics str_lower data min_years = Ok infos
    /\ List.map DataLoader.name infos = List.map fst data
    /\ infos <> [].
Proof.
  intros Hmin Hv. apply validate_data_nil_iff in Hv as [Hne Hall].
  assert (Hlist : exists infos,
            DataLoader.get_available_topics str_lower data min_years = Ok infos
            /\ List.map DataLoader.name infos = List.map fst data).
  { clear Hne.
    induction Hall as [|[topic records] data (Hlen & _) _ (infos & Hi & Hn)];
      simpl in *.
    - exists []. done.
    - destruct (Z.leb_spec min_years (Z.of_nat (length records))); [|lia].
      destruct (max_of_spec (List.map DataLoader.year_of records))
        as (m & Hm & _).
      { destruct records; [simpl in Hlen; lia | discriminate]. }
      rewrite Hm, bind_Ok, Hi, bind_Ok. eexists. split; [reflexivity|].
      simpl. by rewrite Hn. }
  destruct Hlist as (infos & Hi & Hn). exists infos.
  split; [done|]. split; [done|].
  intros ->. simpl in Hn. destruct data; [done | discriminate].
Qed.

(** X19.  With a [min_years] of zero or less a topic without records
    makes [get_available_topics] raise: the greatest year of an empty list
    does not exist. *)
Theorem available_topics_empty_records_raise
    (str_lower : string -> string) (data : DataLoader.dataset) (min_years : Z)
    (t : string) :
  (min_years <= 0)%Z ->
  In (t, []) data ->
  DataLoader.get_available_topics str_lower data min_years
    = Raise (ValueError "max() arg is an empty sequence").
Proof.
  intros Hmin. induction data as [|[topic records] data IH]; [done|].
  intros [Hin|Hin]; simpl.
  - injection Hin as -> ->. simpl.
    destruct (Z.leb_spec min_years (Z.of_nat 0)); [reflexivity | simpl in *; lia].
  - destruct (Z.leb_spec min_years (Z.of_nat (length records))); [|lia].
    destruct records as [|r records]; [reflexivity|].
    simpl DataLoader.max_of. rewrite bind_Ok, (IH Hin). reflexivity.
Qed.

(** ** The predict command *)

Lemma prepare_fold_lookup (raw : DataLoader.dataset) (ts : list string)
    (m : gmap string (list Q)) (t : string) :
  fold_left
    (fun historical_data topic =>
       match DataLoader.get_topic_frequencies raw topic with
       | [] => historical_data
       | frequencies => <[topic := frequencies]> historical_data
       end) ts m !! t
  = if decide (t ∈ ts)
    then match DataLoader.get_topic_frequencies raw t with
         | [] => m !! t
         | frequencies => Some frequencies
         end
    else m !! t.
Proof.
  revert m. induction ts as [|u ts IH]; intros m; simpl.
  - destruct (decide (t ∈ [])) as [Hin|]; [by apply elem_of_nil in Hin | done].
  - rewrite IH. destruct (decide (u = t)) as [->|Hne].
    + destruct (decide (t ∈ t :: ts)) as [_|Hout];
        [|exfalso; apply Hout, elem_of_cons; by left].
      destruct (DataLoader.get_topic_frequencies raw t) as [|f fs] eqn:Hf.
      * by destruct (decide (t ∈ ts)).
      * rewrite lookup_insert_eq. by destruct (decide (t ∈ ts)).
    + assert (Hm : match DataLoader.get_topic_frequencies raw u with
                   | [] => m
                   | f :: fs => <[u := f :: fs]> m
                   end !! t = m !! t).
      { destruct (DataLoader.get_topic_frequencies raw u); [done|].
        by rewrite lookup_insert_ne. }
      rewrite Hm.
      destruct (decide (t ∈ ts)) as [Hin|Hout];
        destruct (decide (t ∈ u :: ts)) as [Hin'|Hout']; try done.
      * exfalso. apply Hout', elem_of_cons. by right.
      * apply elem_of_cons in Hin' as [->|Hin']; done.
Qed.

Lemma prepare_lookup (raw : DataLoader.dataset) (ts : list string) (t : string) :
  Cli.prepare_historical_data raw ts !! t
  = if decide (t ∈ ts)
    then match DataLoader.get_topic_frequencies raw t with
         | [] => None
         | frequencies => Some frequencies
         end
    else None.
Proof.
  unfold Cli.prepare_historical_data. rewrite prepare_fold_lookup.
  rewrite lookup_empty. by destruct (DataLoader.get_topic_frequencies raw t).
Qed.


(** The command over the loop: it ends with a response exactly when
    the data passes validation and at least one requested topic has
    frequencies in it. *)
Lemma predict_command_over_loop
    (settings : Settings) (qiskit_available : bool) (vqe : vqe_backend)
    (raw : DataLoader.dataset) (args : Cli.PredictArgs) (t0 t1 : Q) :
  (forall e,
     Cli.predict_command settings qiskit_available vqe raw args t0 t1
       <> Cli.Failed e)
  /\ (Cli.exit_code
        (Cli.predict_command settings qiskit_available vqe raw args t0 t1) = 0%Z
      <-> DataLoader.validate_data raw (Cli.min_years args) = []
          /\ Exists (fun t => DataLoader.get_topic_frequencies raw t <> [])
               (Cli.topics args)).
Proof.
  unfold Cli.predict_command.
  destruct (DataLoader.validate_data raw (Cli.min_years args)) as [|err errs].
  2:{ split; [discriminate|]. simpl. split; [discriminate|]. by intros [? _]. }
  set (hd := Cli.prepare_historical_data raw (Cli.topics args)).
  assert (Hempty : hd = ∅ <->
            ~ Exists (fun t => DataLoader.get_topic_frequencies raw t <> [])
                (Cli.topics args)).
  { rewrite map_empty. unfold hd. split.
    - intros Hnone Hex. apply Exists_exists in Hex as (t & Hin & Hf).
      specialize (Hnone t). rewrite prepare_lookup in Hnone.
      destruct (decide (t ∈ Cli.topics args)) as [_|Hout]; [|done].
      by destruct (DataLoader.get_topic_frequencies raw t).
    - intros Hno t. rewrite prepare_lookup.
      destruct (decide (t ∈ Cli.topics args)) as [Hin|]; [|done].
      destruct (DataLoader.get_topic_frequencies raw t) as [|f fs] eqn:Hf;
        [done|].
      exfalso. apply Hno, Exists_exists. exists t.
      split; [done | by rewrite Hf]. }
  destruct (bool_decide_reflect (hd = ∅)) as [He|Hne].
  - split; [discriminate|]. simpl. split; [discriminate|].
    intros [_ Hex]. by apply Hempty in He.
  - set (request := Build_PredictionRequest _ _ _ _).
    set (predictor := VQEPredictor_init _ _ _ _).
    destruct (predict_topics_returns predictor settings vqe request hd t0 t1)
      as (ps & ls & _ & ->).
    split; [discriminate|]. simpl. split; [|done].
    intros _. split; [done|].
    assert (Hdec : forall t,
              sumbool (DataLoader.get_topic_frequencies raw t <> [])
                (~ DataLoader.get_topic_frequencies raw t <> [])).
    { intros t. destruct (DataLoader.get_topic_frequencies raw t);
        [right; by intros ? | left; done]. }
    destruct (List.Exists_dec _ (Cli.topics args) Hdec) as [Hex|Hno];
      [done | by apply Hempty in Hno].
Qed.

Lemma LoggedCli_predict_command_brace_free fmt settings qiskit_available vqe
    raw args t0 t1 :
  Forall brace_free (Cli.topics args) ->
  LoggedCli.predict_command fmt settings qiskit_available vqe raw args t0 t1
  = Cli.predict_command settings qiskit_available vqe raw args t0 t1.
Proof.
  intros Hbf. unfold LoggedCli.predict_command, Cli.predict_command.
  destruct (DataLoader.validate_data raw (Cli.min_years args)); [|reflexivity].
  destruct (bool_decide _); [reflexivity|].
  by rewrite Logged_predict_topics_brace_free.
Qed.

(** X21.  The predict command (without [--output]) on requested topics
    whose identifiers are free of braces never ends on an exception of the
    predictor: it exits with code 0 exactly when the data passes
    validation and at least one requested topic has frequencies in it, and
    with code 1, before any estimation, otherwise. *)
Theorem predict_command_exit_code
    (fmt : Loguru.str_format) (settings : Settings) (qiskit_available : bool)
    (vqe : vqe_backend) (raw : DataLoader.dataset) (args : Cli.PredictArgs)
    (t0 t1 : Q) :
  Forall brace_free (Cli.topics args) ->
  (forall e,
     LoggedCli.predict_command fmt settings qiskit_available vqe raw args t0 t1
       <> Cli.Failed e)
  /\ (Cli.exit_code
        (LoggedCli.predict_command fmt settings qiskit_available vqe raw args
           t0 t1) = 0%Z
      <-> DataLoader.validate_data raw (Cli.min_years args) = []
          /\ Exists (fun t => DataLoader.get_topic_frequencies raw t <> [])
               (Cli.topics args)).
Proof.
  intros Hbf. rewrite LoggedCli_predict_command_brace_free by done.
  apply predict_command_over_loop.
Qed.

(** ** Loading *)

Lemma add_row_lookup data t r k :
  DataLoader.lookup (DataLoader.add_row data t r) k
  = if String.eqb t k
    then Some (default [] (DataLoader.lookup data t) ++ [r])
    else DataLoader.lookup data k.
Proof.
  induction data as [|[k' rs] data IH]; simpl.
  - by destruct (String.eqb t k).
  - destruct (String.eqb_spec k' t) as [->|Hne]; simpl.
    + destruct (String.eqb_spec t k) as [->|Hne']; [done|]. done.
    + rewrite IH. destruct (String.eqb_spec k' k) as [->|Hne'].
      * destruct (String.eqb_spec t k) as [->|]; [done|done].
      * done.
Qed.

Lemma group_rows_lookup rows data k :
  DataLoader.lookup
    (fold_left (fun data '(topic, r) => DataLoader.add_row data topic r)
       rows data) k
  = match DataLoader.lookup data k, rows_of rows k with
    | None, [] => None
    | o, rs => Some (default [] o ++ rs)
    end.
Proof.
  revert data. induction rows as [|[t r] rows IH]; intros data; simpl.
  - unfold rows_of. simpl. destruct (DataLoader.lookup data k); [|done].
    by rewrite app_nil_r.
  - rewrite IH, add_row_lookup. unfold rows_of. simpl.
    destruct (String.eqb_spec t k) as [->|Hne]; simpl.
    + destruct (DataLoader.lookup data k) as [rs|]; simpl.
      * rewrite <- app_assoc. simpl.
        by destruct (List.map snd _).
      * by destruct (List.map snd _).
    + done.
Qed.

Lemma lookup_map_sort data k :
  DataLoader.lookup
    (List.map (fun '(topic, records) => (topic, DataLoader.sort_by_year records))
       data) k
  = DataLoader.sort_by_year <$> DataLoader.lookup data k.
Proof.
  induction data as [|[k' rs] data IH]; simpl; [done|].
  by destruct (String.eqb k' k).
Qed.

Lemma insert_by_year_perm r l : DataLoader.insert_by_year r l ≡ₚ r :: l.
Proof.
  induction l as [|x l IH]; simpl; [done|].
  destruct (DataLoader.year_of r <=? DataLoader.year_of x)%Z; [done|].
  rewrite IH. apply Permutation_swap.
Qed.

Lemma sort_by_year_perm l : DataLoader.sort_by_year l ≡ₚ l.
Proof.
  induction l as [|r l IH]; simpl; [done|].
  by rewrite insert_by_year_perm, IH.
Qed.

Lemma insert_by_year_sorted r l :
  Sorted Z.le (List.map DataLoader.year_of l) ->
  Sorted Z.le (List.map DataLoader.year_of (DataLoader.insert_by_year r l)).
Proof.
  induction l as [|x l IH]; simpl; intros Hs.
  - repeat constructor.
  - destruct (Z.leb_spec (DataLoader.year_of r) (DataLoader.year_of x)); simpl.
    + constructor; [done|]. by constructor.
    + apply Sorted_inv in Hs as [Hs Hhd]. constructor; [by apply IH|].
      destruct l as [|y l]; simpl.
      * constructor. lia.
      * destruct (Z.leb_spec (DataLoader.year_of r) (DataLoader.year_of y));
          simpl; constructor; [lia|].
        by apply HdRel_inv in Hhd.
Qed.

Lemma sort_by_year_sorted l :
  Sorted Z.le (List.map DataLoader.year_of (DataLoader.sort_by_year l)).
Proof.
  induction l as [|r l IH]; simpl; [constructor|].
  by apply insert_by_year_sorted.
Qed.

Lemma load_csv_lookup rows t :
  DataLoader.lookup (DataLoader.load_csv_data rows) t
  = match rows_of rows t with
    | [] => None
    | rs => Some (DataLoader.sort_by_year rs)
    end.
Proof.
  unfold DataLoader.load_csv_data. rewrite lookup_map_sort, group_rows_lookup.
  simpl. by destruct (rows_of rows t).
Qed.

(** X22.  Loading groups the rows by topic and orders every group by
    year.  A topic without rows is not in the loaded data; a topic with
    rows is, with exactly the records of its rows (a permutation of them),
    at least one, in non-decreasing order of year. *)
Theorem loaded_records_sorted_by_year
    (rows : list DataLoader.row) (t : string) :
  match DataLoader.lookup (DataLoader.load_csv_data rows) t with
  | None => rows_of rows t = []
  | Some records =>
      records ≡ₚ rows_of rows t
      /\ records <> []
      /\ Sorted Z.le (List.map DataLoader.year_of records)
  end.
Proof.
  rewrite load_csv_lookup.
  destruct (rows_of rows t) as [|r rs] eqn:Hr; [done|].
  split; [apply sort_by_year_perm|]. split; [|apply sort_by_year_sorted].
  intros Hnil. pose proof (sort_by_year_perm (r :: rs)) as Hp.
  rewrite Hnil in Hp. by apply Permutation_nil_cons in Hp.
Qed.

Lemma sort_by_year_sorted_id l :
  Sorted Z.le (List.map DataLoader.year_of l) -> DataLoader.sort_by_year l = l.
Proof.
  induction l as [|r l IH]; simpl; [done|].
  intros Hs. apply Sorted_inv in Hs as [Hs Hhd]. rewrite (IH Hs).
  destruct l as [|x l]; simpl; [done|].
  apply HdRel_inv in Hhd.
  by destruct (Z.leb_spec (DataLoader.year_of r) (DataLoader.year_of x)); [|lia].
Qed.

(** X23.  Loading keeps the file order of rows that are already in
    order: when the rows of a topic come with non-decreasing years, the
    loaded records of the topic are these rows as they stand, rows of the
    same year included. *)
Theorem loaded_records_keep_file_order
    (rows : list DataLoader.row) (t : string) :
  rows_of rows t <> [] ->
  Sorted Z.le (List.map DataLoader.year_of (rows_of rows t)) ->
  DataLoader.lookup (DataLoader.load_csv_data rows) t = Some (rows_of rows t)
  /\ DataLoader.get_topic_frequencies (DataLoader.load_csv_data rows) t
     = List.map DataLoader.percentage (rows_of rows t).
Proof.
  intros Hne Hs. unfold DataLoader.get_topic_frequencies.
  rewrite load_csv_lookup.
  destruct (rows_of rows t) as [|r rs] eqn:Hr; [done|].
  by rewrite (sort_by_year_sorted_id _ Hs).
Qed.

Lemma add_row_nonempty data t r :
  Forall (fun item : string * list DataLoader.record => item.2 <> []) data ->
  Forall (fun item : string * list DataLoader.record => item.2 <> [])
    (DataLoader.add_row data t r).
Proof.
  induction 1 as [|[k rs] data Hk Hd IH]; simpl.
  - constructor; [done | constructor].
  - destruct (String.eqb k t).
    + constructor; [simpl; by destruct rs | exact Hd].
    + constructor; [exact Hk | exact IH].
Qed.

Lemma load_csv_nonempty rows :
  Forall (fun item : string * list DataLoader.record => item.2 <> [])
    (DataLoader.load_csv_data rows).
Proof.
  unfold DataLoader.load_csv_data.
  assert (Hg : forall data,
            Forall (fun item : string * list DataLoader.record => item.2 <> [])
              data ->
            Forall (fun item : string * list DataLoader.record => item.2 <> [])
              (fold_left (fun data '(topic, r) => DataLoader.add_row data topic r)
                 rows data)).
  { induction rows as [|[t r] rows IH]; intros data Hd; simpl; [done|].
    by apply IH, add_row_nonempty. }
  specialize (Hg [] (List.Forall_nil _)). apply List.Forall_map.
  eapply Forall_impl; [exact Hg|].
  intros [k rs] Hrs Hnil. simpl in *.
  pose proof (sort_by_year_perm rs) as Hp. rewrite Hnil in Hp.
  apply Permutation_nil in Hp. done.
Qed.

(** X24.  On loaded data [get_available_topics] never raises, whatever
    [min_years] is: every topic of loaded data has at least one record. *)
Theorem available_topics_of_loaded_data
    (str_lower : string -> string) (rows : list DataLoader.row) (min_years : Z) :
  exists infos,
    DataLoader.get_available_topics str_lower (DataLoader.load_csv_data rows)
      min_years = Ok infos
    /\ Forall (fun i => (1 <= DataLoader.years_available i)%nat) infos.
Proof.
  pose proof (load_csv_nonempty rows) as Hne.
  induction Hne as [|[k rs] data Hk _ (infos & Hi & Hall)]; simpl.
  - exists []. split; [done | constructor].
  - destruct (min_years <=? Z.of_nat (length rs))%Z; [|eauto].
    destruct rs as [|r rs]; [done|]. simpl DataLoader.max_of.
    rewrite bind_Ok, Hi, bind_Ok. eexists. split; [reflexivity|].
    constructor; [simpl; lia | done].
Qed.

(* ================================================================== *)
(** * Concrete runs of the further properties *)

Lemma classical_clamped_sides_run :
  (2 <= length qm_series)%nat
  /\ exists r,
       _classical_prediction default_predictor "quantum-mechanics" qm_series 0.95
         = Ok r
       /\ 0 <= importance r <= 1.
Proof.
  split; [simpl; lia|].
  destruct (classical_clamped_sides default_predictor "quantum-mechanics"
              qm_series 0.95) as (r & Hr & Himp & _); [simpl; lia|].
  exists r. split; [exact Hr | exact Himp].
Defined.

Lemma classical_interval_ordered_on_scale_run :
  0 <= classical_forecast qm_series <= 100
  /\ exists r,
       _classical_prediction default_predictor "quantum-mechanics" qm_series 0.95
         = Ok r
       /\ (confidence_interval r).1 <= importance r
       /\ importance r <= (confidence_interval r).2.
Proof.
  assert (H : 0 <= classical_forecast qm_series <= 100)
    by (vm_compute; split; discriminate).
  split; [exact H|].
  destruct (classical_interval_ordered_on_scale default_predictor
              "quantum-mechanics" qm_series 0.95)
    as (r & Hr & _ & Hlo & Hhi & _); [simpl; lia | exact H |].
  exists r. split; [exact Hr|]. split; [exact Hlo | exact Hhi].
Defined.





Lemma endpoint_empty_topics_is_500_run :
  Api.topics empty_request = []
  /\ exists detail,
       Api.predict_topics (Some true) Api.Falsy empty_request
         = Api.Http500 detail.
Proof.
  split; [reflexivity|].
  exact (endpoint_empty_topics_is_500 (Some true) Api.Falsy empty_request
           eq_refl).
Defined.

Lemma endpoint_answers_every_topic_run :
  Api.topics hybrid_request <> []
  /\ exists r,
       Api.predict_topics (Some true) Api.Falsy hybrid_request = Api.Http200 r
       /\ List.map Api.topic (Api.predictions r) = ["quantum-mechanics"].
Proof.
  assert (H : Api.topics hybrid_request <> []) by discriminate.
  split; [exact H|].
  destruct (endpoint_answers_every_topic (Some true) Api.Falsy hybrid_request
              H eq_refl) as (r & Hr & Htopics & _).
  exists r. split; [exact Hr | exact Htopics].
Defined.

Lemma endpoint_service_failure_is_classical_fallback_run :
  Api.topics hybrid_request <> []
  /\ exists r,
       Api.predict_topics (Some true)
         (Api.Raises (BackendError "service down")) hybrid_request
         = Api.Http200 r
       /\ Api.method_used r = "classical"
       /\ Api.fallback_used r = true.
Proof.
  assert (H : Api.topics hybrid_request <> []) by discriminate.
  split; [exact H|].
  destruct (endpoint_service_failure_is_classical_fallback (Some true)
              (BackendError "service down") hybrid_request H)
    as (r & Hr & Hm & Hf & _).
  exists r. split; [exact Hr|]. split; [exact Hm | exact Hf].
Defined.

Lemma blend_weights_monotone_run :
  0.8 <= 0.95
  /\ (Api.blend_weights 0.8).1 <= (Api.blend_weights 0.95).1.
Proof.
  assert (H : 0.8 <= 0.95) by (vm_compute; discriminate).
  split; [exact H|].
  exact (proj1 (blend_weights_monotone 0.8 0.95 H)).
Defined.

Lemma local_prediction_well_formed_run :
  Api.mock_historical_data !! "statistics" = Some [12; 15; 18; 20; 22]
  /\ 0 <= 22 <= 100
  /\ exists p,
       Api.local_prediction "hybrid" 0.95 Api.mock_historical_data "statistics"
         = Ok p
       /\ (Api.confidence_interval p).1 <= Api.importance p
       /\ Api.importance p <= (Api.confidence_interval p).2.
Proof.
  assert (H1 : Api.mock_historical_data !! "statistics"
               = Some [12; 15; 18; 20; 22]) by (vm_compute; reflexivity).
  assert (H2 : 0 <= 22 <= 100) by (vm_compute; split; discriminate).
  split; [exact H1|]. split; [exact H2|].
  destruct (local_prediction_well_formed "hybrid" 0.95 Api.mock_historical_data
              "statistics" [12; 15; 18; 20; 22] 22 H1 eq_refl H2)
    as (p & Hp & _ & _ & Hlo & Hhi & _).
  exists p. split; [exact Hp|]. split; [exact Hlo | exact Hhi].
Defined.

Lemma validated_frequencies_in_range_run :
  DataLoader.validate_data (DataLoader.load_csv_data csv_rows) 3 = []
  /\ Forall (fun x => 0 <= x <= 100)
       (DataLoader.get_topic_frequencies (DataLoader.load_csv_data csv_rows)
          "algebra").
Proof.
  assert (H : DataLoader.validate_data (DataLoader.load_csv_data csv_rows) 3 = [])
    by (vm_compute; reflexivity).
  split; [exact H|].
  pose proof (validated_frequencies_in_range (DataLoader.load_csv_data csv_rows)
                3 "algebra" H) as Hf.
  assert (Hl : DataLoader.lookup (DataLoader.load_csv_data csv_rows) "algebra"
               = Some [(2020, 25, 100)%Z; (2021, 20, 100)%Z; (2022, 30, 100)%Z])
    by (vm_compute; reflexivity).
  rewrite Hl in Hf. exact (proj2 (proj2 Hf)).
Defined.

Lemma available_topics_listing_run :
  (1 <= 3)%Z
  /\ exists infos,
       DataLoader.get_available_topics (fun s => s)
         (DataLoader.load_csv_data csv_rows) 3 = Ok infos
       /\ List.map DataLoader.name infos = ["algebra"; "physics"].
Proof.
  assert (H : (1 <= 3)%Z) by lia.
  split; [exact H|].
  destruct (available_topics_listing (fun s => s)
              (DataLoader.load_csv_data csv_rows) 3 H)
    as (infos & Hi & Hn & _).
  exists infos. split; [exact Hi|]. rewrite Hn. vm_compute. reflexivity.
Defined.

Lemma validated_topics_all_available_run :
  DataLoader.validate_data (DataLoader.load_csv_data csv_rows) 3 = []
  /\ exists infos,
       DataLoader.get_available_topics (fun s => s)
         (DataLoader.load_csv_data csv_rows) 3 = Ok infos
       /\ infos <> [].
Proof.
  assert (H : DataLoader.validate_data (DataLoader.load_csv_data csv_rows) 3 = [])
    by (vm_compute; reflexivity).
  split; [exact H|].
  destruct (validated_topics_all_available (fun s => s)
              (DataLoader.load_csv_data csv_rows) 3) as (infos & Hi & _ & Hne);
    [lia | exact H |].
  exists infos. split; [exact Hi | exact Hne].
Defined.

Lemma available_topics_empty_records_raise_run :
  (0 <= 0)%Z
  /\ In ("geometry", []) [("algebra", [(2020, 25, 100)%Z]); ("geometry", [])]
  /\ DataLoader.get_available_topics (fun s => s)
       [("algebra", [(2020, 25, 100)%Z]); ("geometry", [])] 0
     = Raise (ValueError "max() arg is an empty sequence").
Proof.
  assert (H : In ("geometry", [] : list DataLoader.record)
                [("algebra", [(2020, 25, 100)%Z]); ("geometry", [])])
    by (right; left; reflexivity).
  split; [lia|]. split; [exact H|].
  apply (available_topics_empty_records_raise (fun s => s) _ 0 "geometry");
    [lia | exact H].
Defined.

Lemma short_series_warning_raises_run :
  Loguru.has_brace "{x}" = true
  /\ short_braces_data !! "{x}" = Some [10; 12]
  /\ (Z.of_nat (length [10; 12]) < min_historical_years default_settings)%Z
  /\ Logged.predict_topics missing_field default_predictor default_settings
       steady_backend braces_request short_braces_data 0 1
     = Raise (KeyError "x").
Proof.
  split; [reflexivity|]. split; [vm_compute; reflexivity|].
  split; [vm_compute; reflexivity|].
  apply (short_series_warning_raises missing_field default_predictor
           default_settings steady_backend braces_request short_braces_data
           0 1 ["linear-algebra"] [] "{x}" [10; 12] (KeyError "x"));
    [ reflexivity
    | constructor; [vm_compute; reflexivity | constructor]
    | reflexivity | vm_compute; reflexivity | vm_compute; reflexivity
    | reflexivity ].
Defined.

Lemma predict_command_exit_code_run :
  Forall brace_free (Cli.topics csv_args)
  /\ DataLoader.validate_data (DataLoader.load_csv_data csv_rows)
       (Cli.min_years csv_args) = []
  /\ Cli.exit_code
       (LoggedCli.predict_command missing_field default_settings true
          steady_backend (DataLoader.load_csv_data csv_rows) csv_args 0 1)
     = 0%Z.
Proof.
  assert (Hbf : Forall brace_free (Cli.topics csv_args))
    by (constructor; [vm_compute; reflexivity
                     |constructor; [vm_compute; reflexivity | constructor]]).
  assert (H : DataLoader.validate_data (DataLoader.load_csv_data csv_rows)
                (Cli.min_years csv_args) = []) by (vm_compute; reflexivity).
  split; [exact Hbf|]. split; [exact H|].
  apply (predict_command_exit_code missing_field default_settings true
           steady_backend (DataLoader.load_csv_data csv_rows) csv_args 0 1 Hbf).
  split; [exact H|]. left. vm_compute. discriminate.
Defined.


Lemma loaded_records_keep_file_order_run :
  rows_of csv_rows "physics" <> []
  /\ DataLoader.lookup (DataLoader.load_csv_data csv_rows) "physics"
     = Some (rows_of csv_rows "physics").
Proof.
  assert (H : rows_of csv_rows "physics" <> []) by (vm_compute; discriminate).
  split; [exact H|].
  apply (loaded_records_keep_file_order csv_rows "physics" H).
  vm_compute. repeat constructor; discriminate.
Defined.
